(** * A shallow embedding of [esy/client.py]

    The ESI client wraps bravado: [ESICallableOperation] checks the
    authorization requirement and builds the request, [ESIRequestsClient]
    opens a session and hands an [ESIPageGenerator] back (paginated
    operations) or resolves its first page ([get]), and the page generator
    walks the pages, consulting an optional pluggable cache.

    Python exceptions are modelled by a small state-and-exception monad; the
    state is the "world" (the log of requests sent over the network and the
    state of the caller-supplied cache) together with the page generator
    object. *)

From Stdlib Require Import String Ascii List ZArith Bool Lia.
Import ListNotations.
Open Scope string_scope.
Open Scope Z_scope.
Set Warnings "-register-all".

(* ------------------------------------------------------------------ *)
(** ** Python values used by the client *)

(** Query parameter values: the ESI operations take integers and strings. *)
Inductive PyVal :=
| PInt (z : Z)
| PStr (s : string).

(** JSON documents as [json.loads] returns them (numbers restricted to
    integers). They also stand for the unmarshalled response payloads. *)
Inductive Json :=
| JNull
| JBool (b : bool)
| JNum (z : Z)
| JStr (s : string)
| JArr (xs : list Json)
| JObj (kvs : list (string * Json)).

(** A Python [dict] with insertion order: an association list with unique keys. *)
Definition dict (V : Type) := list (string * V).

Fixpoint dict_get {V} (d : dict V) (k : string) : option V :=
  match d with
  | [] => None
  | (k', v) :: r => if String.eqb k k' then Some v else dict_get r k
  end.

(** [d[k] = v]: an existing key keeps its position, a new one is appended. *)
Fixpoint dict_set {V} (d : dict V) (k : string) (v : V) : dict V :=
  match d with
  | [] => [(k, v)]
  | (k', v') :: r => if String.eqb k k' then (k', v) :: r else (k', v') :: dict_set r k v
  end.

Definition dict_update {V} (d : dict V) (upd : dict V) : dict V :=
  fold_left (fun acc kv => dict_set acc (fst kv) (snd kv)) upd d.

(** [k in d] *)
Definition dict_mem {V} (d : dict V) (k : string) : bool :=
  match dict_get d k with Some _ => true | None => false end.

(** ASCII case folding, as [requests.structures.CaseInsensitiveDict] does. *)
Definition lower_ascii (c : ascii) : ascii :=
  let n := nat_of_ascii c in
  if (65 <=? n)%nat && (n <=? 90)%nat then ascii_of_nat (n + 32) else c.

Fixpoint lower (s : string) : string :=
  match s with
  | EmptyString => EmptyString
  | String c r => String (lower_ascii c) (lower r)
  end.

(** [headers.get(name, default)] on a case-insensitive header mapping. *)
Fixpoint ci_get (h : dict string) (k : string) : option string :=
  match h with
  | [] => None
  | (k', v) :: r => if String.eqb (lower k) (lower k') then Some v else ci_get r k
  end.

(** Session headers are a case-insensitive dict too: setting a header replaces
    the entry whose name matches case-insensitively. *)
Fixpoint ci_set (h : dict string) (k v : string) : dict string :=
  match h with
  | [] => [(k, v)]
  | (k', v') :: r =>
      if String.eqb (lower k) (lower k') then (k, v) :: r else (k', v') :: ci_set r k v
  end.

Definition ci_update (h : dict string) (upd : dict string) : dict string :=
  fold_left (fun acc kv => ci_set acc (fst kv) (snd kv)) upd h.

(** *** [int(s)] for a [str] in base 10

    Surrounding whitespace is stripped, one optional sign, then decimal
    digits where a single underscore may separate two digits. A character is
    a code point below 256 (header values are decoded as Latin-1); the
    whitespace among them is [\t]-[\r], [\x1c]-[\x1f], space, [\x85] and
    [\xa0], as [str.isspace] says. *)
Definition is_ws (c : ascii) : bool :=
  let n := nat_of_ascii c in
  ((9 <=? n)%nat && (n <=? 13)%nat) || ((28 <=? n)%nat && (n <=? 32)%nat) ||
  (n =? 133)%nat || (n =? 160)%nat.

Definition is_digit (c : ascii) : bool :=
  let n := nat_of_ascii c in (48 <=? n)%nat && (n <=? 57)%nat.

Definition digit_val (c : ascii) : Z := Z.of_nat (nat_of_ascii c) - 48.

Fixpoint drop_ws (l : list ascii) : list ascii :=
  match l with
  | c :: r => if is_ws c then drop_ws r else l
  | [] => []
  end.

Definition strip (l : list ascii) : list ascii := rev (drop_ws (rev (drop_ws l))).

Fixpoint parse_digits (l : list ascii) (acc : Z) : option Z :=
  match l with
  | [] => Some acc
  | c :: r =>
      if is_digit c then parse_digits r (acc * 10 + digit_val c)
      else if Ascii.eqb c "_"%char then
        match r with
        | d :: r' => if is_digit d then parse_digits r' (acc * 10 + digit_val d) else None
        | [] => None
        end
      else None
  end.

Definition parse_unsigned (l : list ascii) : option Z :=
  match l with
  | d :: r => if is_digit d then parse_digits r (digit_val d) else None
  | [] => None
  end.

Definition py_int (s : string) : option Z :=
  match strip (list_ascii_of_string s) with
  | c :: r =>
      if Ascii.eqb c "-"%char then option_map Z.opp (parse_unsigned r)
      else if Ascii.eqb c "+"%char then parse_unsigned r
      else parse_unsigned (c :: r)
  | [] => None
  end.

(** *** [str] and [repr] *)

Definition digit_char (n : Z) : ascii := ascii_of_nat (Z.to_nat (n + 48)).

Fixpoint nat_digits (fuel : nat) (n : Z) (acc : string) : string :=
  match fuel with
  | O => acc
  | S f =>
      let acc' := String (digit_char (n mod 10)) acc in
      if n <? 10 then acc' else nat_digits f (n / 10) acc'
  end.

(** [str(n)] for an [int] *)
Definition z_str (n : Z) : string :=
  if n <? 0 then String "-"%char (nat_digits (Z.to_nat (Z.log2_up (- n) + 1)) (- n) "")
  else nat_digits (Z.to_nat (Z.log2_up n + 1)) n "".

Definition hex_char (n : Z) : ascii :=
  if n <? 10 then digit_char n else ascii_of_nat (Z.to_nat (n + 87)).

Definition has_char (c : ascii) (s : string) : bool :=
  existsb (Ascii.eqb c) (list_ascii_of_string s).

Definition dquote : ascii := ascii_of_nat 34.

(** [repr(s)] for a [str] of code points below 256: single quotes unless the
    text holds a single quote and no double quote; the non-printable code
    points (below 32, 127 to 160, and 173) are written [\xhh]. *)
Definition str_repr (s : string) : string :=
  let q : ascii := if has_char "'"%char s && negb (has_char dquote s) then dquote else "'"%char in
  let esc (c : ascii) : string :=
    let n := Z.of_nat (nat_of_ascii c) in
    if Ascii.eqb c "\"%char then String "\"%char (String "\"%char EmptyString)
    else if Ascii.eqb c q then String "\"%char (String c EmptyString)
    else if n =? 10 then "\n"
    else if n =? 13 then "\r"
    else if n =? 9 then "\t"
    else if (n <? 32) || ((127 <=? n) && (n <=? 160)) || (n =? 173) then
      String "\"%char (String "x"%char (String (hex_char (n / 16)) (String (hex_char (n mod 16)) EmptyString)))
    else String c EmptyString in
  String q (fold_right (fun c acc => esc c ++ acc) (String q EmptyString) (list_ascii_of_string s)).

Definition pyval_repr (v : PyVal) : string :=
  match v with PInt z => z_str z | PStr s => str_repr s end.

(** [str(d)] for a [dict]: [{k1: v1, k2: v2}] in insertion order. *)
Definition dict_repr {V} (vrepr : V -> string) (d : dict V) : string :=
  "{" ++ String.concat ", " (map (fun kv => str_repr (fst kv) ++ ": " ++ vrepr (snd kv)) d) ++ "}".

(** [str(j)] and [repr(j)] of what [json.loads] returned. *)
Fixpoint json_repr (j : Json) : string :=
  match j with
  | JNull => "None"
  | JBool true => "True"
  | JBool false => "False"
  | JNum z => z_str z
  | JStr s => str_repr s
  | JArr xs =>
      "[" ++ String.concat ", " ((fix go (l : list Json) : list string :=
                                   match l with [] => [] | x :: r => json_repr x :: go r end) xs) ++ "]"
  | JObj kvs =>
      "{" ++ String.concat ", " ((fix go (l : list (string * Json)) : list string :=
                                   match l with
                                   | [] => []
                                   | (k, v) :: r => (str_repr k ++ ": " ++ json_repr v) :: go r
                                   end) kvs) ++ "}"
  end.

Definition json_str (j : Json) : string :=
  match j with JStr s => s | _ => json_repr j end.

Definition json_type_name (j : Json) : string :=
  match j with
  | JNull => "NoneType" | JBool _ => "bool" | JNum _ => "int"
  | JStr _ => "str" | JArr _ => "list" | JObj _ => "dict"
  end.

(** [dict.get] on a decoded JSON object: with duplicate keys the last one wins. *)
Definition json_obj_get (kvs : list (string * Json)) (k : string) : option Json :=
  dict_get (rev kvs) k.

(* ------------------------------------------------------------------ *)
(** ** Requests, responses and exceptions *)

(** [requests.Request] as bravado's [authenticated_request] builds it. *)
Record Request := mkRequest {
  req_method : string;
  req_url : string;
  req_params : dict PyVal;
  req_auth : option (string * string);
  req_headers : dict string
}.

(** [RequestsFutureAdapter]: the session (its headers) and the request.
    What goes over the wire is this pair, so the network log records it. *)
Record Future := mkFuture {
  session_headers : dict string;
  request : Request
}.

Record Response := mkResponse {
  status_code : Z;
  reason : string;
  text : string;
  payload : Json;
  resp_headers : dict string
}.

(** Exceptions that reach the caller. [HTTPError code resp] is bravado's
    exception class for the status code: [HTTPBadRequest] (400),
    [HTTPForbidden] (403), [HTTPNotFound] (404), [HTTPInternalServerError]
    (500), and the other [HTTPError] subclasses. *)
Inductive Exc :=
| StopIteration
| HTTPError (code : Z) (resp : Response)
| ESIError (msg : string)
| ESINotFound (msg : string)
| ESIForbidden (msg : string)
| ESIAuthorizationError (msg : string)
| SwaggerMappingError (msg : string)
| ValueError (msg : string)
| TypeError (msg : string)
| AttributeError (msg : string)
| AssertionError.

(** bravado's [str(HTTPError)]: [str(response)], the status and the reason,
    then [': ' + str(swagger_result)] when there is a result. A 5xx is raised
    by [raise_on_unexpected] before the body is unmarshalled, so it has none;
    any other error status is raised by [raise_on_expected] with the
    unmarshalled body ([payload], [None] as [JNull]; plain data, as with
    [use_models=False], [get_client]'s default). *)
Definition http_error_str (code : Z) (resp : Response) : string :=
  z_str code ++ " " ++ reason resp ++
  (if (500 <=? code) && (code <=? 599) then ""
   else match payload resp with
        | JNull => ""
        | j => ": " ++ json_str j
        end).

(* ------------------------------------------------------------------ *)
(** ** CPython's [hash] on [int] and [tuple] *)

Definition hash_modulus : Z := 2 ^ 61 - 1.

(** [long_hash]: the residue modulo the Mersenne prime 2^61 - 1, with the sign
    of the argument; -1 is reserved and becomes -2. *)
Definition hash_int (x : Z) : Z :=
  let h := if x <? 0 then - ((- x) mod hash_modulus) else x mod hash_modulus in
  if h =? -1 then -2 else h.

Definition u64 (x : Z) : Z := x mod 2 ^ 64.

Definition to_signed64 (x : Z) : Z := if x <? 2 ^ 63 then x else x - 2 ^ 64.

Definition xxprime_1 : Z := 11400714785074694791.
Definition xxprime_2 : Z := 14029467366897019727.
Definition xxprime_5 : Z := 2870177450012600261.

Definition xxrotate (x : Z) : Z := u64 (Z.lor (Z.shiftl x 31) (Z.shiftr x 33)).

(** [tuplehash] (CPython 3.8 and later), over the hashes of the items. *)
Definition tuple_hash (lanes : list Z) : Z :=
  let acc := fold_left
               (fun acc lane => u64 (xxrotate (u64 (acc + u64 lane * xxprime_2)) * xxprime_1))
               lanes xxprime_5 in
  let acc := u64 (acc + Z.lxor (Z.of_nat (length lanes)) (Z.lxor xxprime_5 3527539)) in
  if acc =? 2 ^ 64 - 1 then 1546275796 else to_signed64 acc.

(* ------------------------------------------------------------------ *)
(** ** [datetime(y, m, d, H, M, S, us, tzinfo)] *)

Record DateTime := mkDateTime {
  dt_year : Z; dt_month : Z; dt_day : Z;
  dt_hour : Z; dt_minute : Z; dt_second : Z; dt_microsecond : Z;
  dt_tz : string
}.

Definition is_leap (y : Z) : bool :=
  (y mod 4 =? 0) && (negb (y mod 100 =? 0) || (y mod 400 =? 0)).

Definition days_in_month (y m : Z) : Z :=
  if m =? 2 then (if is_leap y then 29 else 28)
  else if (m =? 4) || (m =? 6) || (m =? 9) || (m =? 11) then 30 else 31.

Definition in_range (lo x hi : Z) : bool := (lo <=? x) && (x <=? hi).

Definition nth_or (l : list Z) (i : nat) (d : Z) : Z := nth i l d.

(** Called with the positional arguments [args] and the given tzinfo; the
    optional time fields default to 0. *)
Definition py_datetime (args : list Z) (tz : string) : Exc + DateTime :=
  if (length args <? 3)%nat then inl (TypeError "function missing required argument")
  else
    let y := nth_or args 0 0 in let m := nth_or args 1 0 in let d := nth_or args 2 0 in
    let hh := nth_or args 3 0 in let mm := nth_or args 4 0 in
    let ss := nth_or args 5 0 in let us := nth_or args 6 0 in
    if negb (in_range 1 y 9999) then inl (ValueError ("year " ++ z_str y ++ " is out of range"))
    else if negb (in_range 1 m 12) then inl (ValueError "month must be in 1..12")
    else if negb (in_range 1 d (days_in_month y m)) then inl (ValueError "day is out of range for month")
    else if negb (in_range 0 hh 23) then inl (ValueError "hour must be in 0..23")
    else if negb (in_range 0 mm 59) then inl (ValueError "minute must be in 0..59")
    else if negb (in_range 0 ss 59) then inl (ValueError "second must be in 0..59")
    else if negb (in_range 0 us 999999) then inl (ValueError "microsecond must be in 0..999999")
    else inr (mkDateTime y m d hh mm ss us tz).

(* ------------------------------------------------------------------ *)
(** ** A state and exception monad

    An exception leaves the state as it was when it was raised: the objects
    mutated before the raise stay mutated, as in Python. *)

Inductive Result (A : Type) :=
| Ok (a : A)
| Err (e : Exc).
Arguments Ok {A} a.
Arguments Err {A} e.

Definition M (S A : Type) := S -> Result A * S.

Definition ret {S A} (a : A) : M S A := fun s => (Ok a, s).

Definition bind {S A B} (m : M S A) (k : A -> M S B) : M S B :=
  fun s => match m s with
           | (Ok a, s') => k a s'
           | (Err e, s') => (Err e, s')
           end.

Definition raise {S A} (e : Exc) : M S A := fun s => (Err e, s).

(** [try: m except e: h(e)] *)
Definition catch {S A} (m : M S A) (h : Exc -> M S A) : M S A :=
  fun s => match m s with
           | (Ok a, s') => (Ok a, s')
           | (Err e, s') => h e s'
           end.

Definition get_st {S} : M S S := fun s => (Ok s, s).
Definition put_st {S} (s : S) : M S unit := fun _ => (Ok tt, s).

Definition of_sum {S A} (r : Exc + A) : M S A :=
  match r with inl e => raise e | inr a => ret a end.

Notation "x <- m ;; k" := (bind m (fun x => k)) (at level 61, m at next level, right associativity).
Notation "m ;;; k" := (bind m (fun _ => k)) (at level 61, right associativity).

(* ------------------------------------------------------------------ *)
(** ** The operations as bravado loads them, and [construct_request] *)

Inductive Location := InQuery | InPath.

Record Param := mkParam {
  param_name : string;
  param_location : Location;
  param_required : bool;
  param_default : option PyVal
}.

(** An operation of the swagger spec; [security_specs] lists, for each
    security requirement object, the names of the schemes it requires. *)
Record Operation := mkOperation {
  operation_id : string;
  http_method : string;
  api_url : string;
  path_name : string;
  op_params : list Param;
  security_specs : list (list string)
}.

Fixpoint upper (s : string) : string :=
  match s with
  | EmptyString => EmptyString
  | String c r =>
      let n := nat_of_ascii c in
      String (if (97 <=? n)%nat && (n <=? 122)%nat then ascii_of_nat (n - 32) else c) (upper r)
  end.

Fixpoint rstrip_slash_rev (l : list ascii) : list ascii :=
  match l with
  | c :: r => if Ascii.eqb c "/"%char then rstrip_slash_rev r else l
  | [] => []
  end.

Definition rstrip_slash (s : string) : string :=
  string_of_list_ascii (rev (rstrip_slash_rev (rev (list_ascii_of_string s)))).

(** [current_params.pop(name, None)] *)
Fixpoint pop_param (ps : list Param) (k : string) : option (Param * list Param) :=
  match ps with
  | [] => None
  | p :: r =>
      if String.eqb (param_name p) k then Some (p, r)
      else match pop_param r k with
           | Some (q, r') => Some (q, p :: r')
           | None => None
           end
  end.

(** [url.replace(old, new)] *)
Fixpoint replace_all (fuel : nat) (pat new : string) (s : string) : string :=
  match fuel with
  | O => s
  | S f =>
      match s with
      | EmptyString => EmptyString
      | String c r =>
          if String.prefix pat s && negb (String.eqb pat "")
          then new ++ replace_all f pat new (substring (String.length pat) (String.length s) s)
          else String c (replace_all f pat new r)
      end
  end.

Definition str_replace (s pat new : string) : string := replace_all (String.length s) pat new s.

(** [marshal_param] for a query or path parameter: a query value goes into the
    params dict, a path value is written into the URL template (the values
    here are integers and URL-safe strings, so quoting leaves them as they are). *)
Definition marshal_param (p : Param) (v : PyVal) (req : string * dict PyVal) : string * dict PyVal :=
  match param_location p with
  | InQuery => (fst req, dict_set (snd req) (param_name p) v)
  | InPath =>
      (str_replace (fst req) ("{" ++ param_name p ++ "}")
                   (match v with PInt z => z_str z | PStr s => s end), snd req)
  end.

(** bravado's [construct_params]: each keyword argument must name a parameter
    of the operation; a parameter left over is an error when it is required
    and is filled with its default when it has one. *)
Fixpoint marshal_kwargs (op : Operation) (remaining : list Param) (kwargs : dict PyVal)
    (req : string * dict PyVal) : Exc + (list Param * (string * dict PyVal)) :=
  match kwargs with
  | [] => inr (remaining, req)
  | (k, v) :: r =>
      match pop_param remaining k with
      | None => inl (SwaggerMappingError (operation_id op ++ " does not have parameter " ++ k))
      | Some (p, remaining') => marshal_kwargs op remaining' r (marshal_param p v req)
      end
  end.

Fixpoint marshal_remaining (remaining : list Param) (req : string * dict PyVal)
    : Exc + (string * dict PyVal) :=
  match remaining with
  | [] => inr req
  | p :: r =>
      if param_required p then inl (SwaggerMappingError (param_name p ++ " is a required parameter"))
      else match param_default p with
           | Some d => marshal_remaining r (marshal_param p d req)
           | None => marshal_remaining r req
           end
  end.

(** bravado's [construct_request] followed by [authenticated_request]:
    the [requests.Request] the call will send. *)
Definition construct_request (op : Operation) (kwargs : dict PyVal) : Exc + Request :=
  let url := rstrip_slash (api_url op) ++ path_name op in
  match marshal_kwargs op (op_params op) kwargs (url, []) with
  | inl e => inl e
  | inr (remaining, req) =>
      match marshal_remaining remaining req with
      | inl e => inl e
      | inr (url', params) => inr (mkRequest (upper (http_method op)) url' params None [])
      end
  end.

(** [ESICallableOperation.__init__] *)
Definition require_authorization (op : Operation) : bool :=
  existsb (fun spec => existsb (String.eqb "evesso") spec) (security_specs op).

Definition paginated (op : Operation) : bool :=
  existsb (fun p => String.eqb (param_name p) "page") (op_params op).

(** Truth value of the [_token] argument (a [str] or [None]). *)
Definition truthy (t : option string) : bool :=
  match t with Some s => negb (String.eqb s "") | None => false end.

(** The headers of a fresh [requests.Session]. *)
Definition default_session_headers (requests_ua : string) : dict string :=
  [("User-Agent", requests_ua); ("Accept-Encoding", "gzip, deflate");
   ("Accept", "*/*"); ("Connection", "keep-alive")].

(** The session headers [ESIRequestsClient.request] sets up. *)
Definition session_headers_for (requests_ua : string) (token : option string) (user_agent : string)
    : dict string :=
  let h := default_session_headers requests_ua in
  let h := match token with
           | Some t => if truthy token then ci_update h [("Authorization", "Bearer " ++ t)] else h
           | None => h
           end in
  ci_update h [("User-Agent", user_agent)].

(* ------------------------------------------------------------------ *)
(** ** The page generator and the client *)

Section Runtime.

(** The state of the cache object the caller supplies. *)
Variable CS : Type.
(** [hash] of a [str]: keyed per interpreter process. *)
Variable hash_str : string -> Z.
(** [email.utils.parsedate] on a non-empty string: the date and time fields
    (year, month, day, hour, minute, second), without the zone offset. *)
Variable parsedate_fields : string -> option (Z * Z * Z * Z * Z * Z).
(** [json.loads]: the decoded document, or the text of the decode error. *)
Variable json_loads : string -> string + Json.
(** The remote API: the response to what a future sends. *)
Variable server : Future -> Response.

(** The cache object as [ESIPageGenerator] sees it: each of [get], [set] and
    [__contains__] is [None] when the attribute is missing or not callable. *)
Record CacheImpl := mkCacheImpl {
  cache_get : option (CS -> Z -> option (Json * Z));
  cache_set : option (CS -> Z -> Json * Z -> DateTime -> CS);
  cache_contains : option (CS -> Z -> bool)
}.

(** The world: the requests sent so far (latest first) and the cache's state. *)
Record World := mkWorld {
  net_log : list Future;
  cstate : CS
}.

(** An [ESIPageGenerator] object. *)
Record Gen := mkGen {
  future : Future;
  page : Z;
  num_pages : Z;
  stop : bool;
  cache : option CacheImpl
}.

Definition GM := M (Gen * World).
Definition WM := M World.

Definition get_gen : GM Gen := s <- get_st ;; ret (fst s).
Definition put_gen (g : Gen) : GM unit := s <- get_st ;; put_st (g, snd s).
Definition get_world : GM World := s <- get_st ;; ret (snd s).
Definition put_world (w : World) : GM unit := s <- get_st ;; put_st (fst s, w).

(** [ESIPageGenerator.__init__] *)
Definition init_gen (f : Future) (c : option CacheImpl) : Exc + Gen :=
  let g := mkGen f 1 1 false c in
  match c with
  | None => inr g
  | Some ci =>
      match cache_get ci, cache_set ci, cache_contains ci with
      | Some _, Some _, Some _ => inr g
      | _, _, _ => inl AssertionError
      end
  end.

Definition auth_str (a : option (string * string)) : string :=
  match a with
  | None => "None"
  | Some (u, p) => "(" ++ str_repr u ++ ", " ++ str_repr p ++ ")"
  end.

(** [hash((url, params_text, auth_text, headers_text, method, page))] *)
Definition cache_key_of (url params_text auth_text headers_text method : string) (pg : Z) : Z :=
  tuple_hash [hash_str url; hash_str params_text; hash_str auth_text;
              hash_str headers_text; hash_str method; hash_int pg].

(** The strings [_get_cache_key] puts in the tuple: the URL, [str] of the
    params, of the auth and of the headers, and the method. *)
Definition key_text (g : Gen) : string * string * string * string * string :=
  let r := request (future g) in
  (req_url r, dict_repr pyval_repr (req_params r), auth_str (req_auth r),
   dict_repr str_repr (req_headers r), req_method r).

(** [ESIPageGenerator._get_cache_key] *)
Definition get_cache_key (g : Gen) : Z :=
  let r := request (future g) in
  cache_key_of (req_url r) (dict_repr pyval_repr (req_params r)) (auth_str (req_auth r))
               (dict_repr str_repr (req_headers r)) (req_method r) (page g).

(** [ESIPageGenerator._send]: one network request; bravado's [HttpFuture]
    raises the status code's [HTTPError] unless the status is 2xx, and
    returns the payload with the response otherwise. [payload] stands for
    bravado's unmarshalled [swagger_result]: the server is taken to answer
    with statuses the operation declares and bodies that validate, so the
    [HTTPError] bravado raises on an undeclared status or a body that fails
    validation, and response callbacks, are not modelled. *)
Definition send : GM (Json * Response) :=
  g <- get_gen ;;
  w <- get_world ;;
  put_world (mkWorld (future g :: net_log w) (cstate w)) ;;;
  let resp := server (future g) in
  if (200 <=? status_code resp) && (status_code resp <? 300)
  then ret (payload resp, resp)
  else raise (HTTPError (status_code resp) resp).

(** [int(response.headers.get('x-pages', '1'))]; the error text formats the
    value with [%.200R]: its [repr], cut to 200 characters. *)
Definition x_pages (resp : Response) : Exc + Z :=
  let v := match ci_get (resp_headers resp) "x-pages" with Some v => v | None => "1" end in
  match py_int v with
  | Some n => inr n
  | None => inl (ValueError ("invalid literal for int() with base 10: " ++ substring 0 200 (str_repr v)))
  end.

(** [email.utils.parsedate(response.headers.get('expires'))]: [None] for a
    missing or empty header, else the 9-tuple of [time.struct_time] fields. *)
Definition py_parsedate (h : option string) : option (list Z) :=
  match h with
  | None => None
  | Some EmptyString => None
  | Some s =>
      match parsedate_fields s with
      | Some (y, mo, d, hh, mi, ss) => Some [y; mo; d; hh; mi; ss; 0; 1; -1]
      | None => None
      end
  end.

(** [datetime( *parsedate(...)[:7], pytz.UTC)] *)
Definition expires_of (resp : Response) : Exc + DateTime :=
  match py_parsedate (ci_get (resp_headers resp) "expires") with
  | None => inl (TypeError "'NoneType' object is not subscriptable")
  | Some fields => py_datetime (firstn 7 fields) "UTC"
  end.

Definition set_num_pages (n : Z) : GM unit :=
  g <- get_gen ;; put_gen (mkGen (future g) (page g) n (stop g) (cache g)).

(** [key in self.cache], [self.cache.get(key)], [self.cache.set(...)] *)
Definition cache_has (ci : CacheImpl) (key : Z) : GM bool :=
  w <- get_world ;;
  match cache_contains ci with
  | Some c => ret (c (cstate w) key)
  | None => raise (TypeError "argument of type is not iterable")
  end.

Definition cache_lookup (ci : CacheImpl) (key : Z) : GM (Json * Z) :=
  w <- get_world ;;
  match cache_get ci with
  | Some gt =>
      match gt (cstate w) key with
      | Some v => ret v
      | None => raise (TypeError "cannot unpack non-iterable NoneType object")
      end
  | None => raise (AttributeError "object has no attribute 'get'")
  end.

Definition cache_store (ci : CacheImpl) (key : Z) (v : Json * Z) (e : DateTime) : GM unit :=
  w <- get_world ;;
  match cache_set ci with
  | Some st => put_world (mkWorld (net_log w) (st (cstate w) key v e))
  | None => raise (AttributeError "object has no attribute 'set'")
  end.

(** [ESIPageGenerator.result] *)
Definition result : GM Json :=
  g <- get_gen ;;
  match cache g with
  | Some ci =>
      let key := get_cache_key g in
      hit <- cache_has ci key ;;
      if hit then
        v <- cache_lookup ci key ;;
        set_num_pages (snd v) ;;;
        ret (fst v)
      else
        r <- send ;;
        n <- of_sum (x_pages (snd r)) ;;
        set_num_pages n ;;;
        expires <- of_sum (expires_of (snd r)) ;;
        cache_store ci key (fst r, n) expires ;;;
        ret (fst r)
  | None =>
      r <- send ;;
      n <- of_sum (x_pages (snd r)) ;;
      set_num_pages n ;;;
      ret (fst r)
  end.

(** The handler of [ESIPageGenerator.get] for a not-found response: the
    [ESINotFound] raised inside the inner [try] is caught by its own
    [except Exception] and raised again as [ESINotFound(str(ex))], which
    carries the same text. *)
Definition not_found_msg (resp : Response) : string :=
  match json_loads (text resp) with
  | inl decode_error => decode_error
  | inr (JObj kvs) =>
      json_str (match json_obj_get kvs "error" with Some v => v | None => JStr "Not found" end)
  | inr j => "'" ++ json_type_name j ++ "' object has no attribute 'get'"
  end.

(** [ESIPageGenerator.get] *)
Definition get : GM Json :=
  catch result
    (fun e =>
       match e with
       | HTTPError code resp =>
           if (code =? 500) || (code =? 400) then raise (ESIError (http_error_str code resp))
           else if code =? 404 then raise (ESINotFound (not_found_msg resp))
           else if code =? 403 then raise (ESIForbidden "Access denied")
           else raise e
       | _ => raise e
       end).

(** [self.requests_future.request.params['page'] = p] *)
Definition with_page (f : Future) (p : Z) : Future :=
  let r := request f in
  mkFuture (session_headers f)
           (mkRequest (req_method r) (req_url r) (dict_set (req_params r) "page" (PInt p))
                      (req_auth r) (req_headers r)).

(** [ESIPageGenerator.__next__] *)
Definition next : GM Json :=
  g <- get_gen ;;
  if stop g then raise StopIteration
  else
    put_gen (mkGen (with_page (future g) (page g)) (page g) (num_pages g) (stop g) (cache g)) ;;;
    data <- result ;;
    g' <- get_gen ;;
    let p := page g' + 1 in
    put_gen (mkGen (future g') p (num_pages g') (if p >? num_pages g' then true else stop g') (cache g')) ;;;
    ret data.

(** A [for] loop over the generator: [next] until [StopIteration], at most
    [fuel] times. *)
Fixpoint drain (fuel : nat) : GM (list Json) :=
  match fuel with
  | O => ret []
  | S f =>
      fun s =>
        match next s with
        | (Ok x, s') => match drain f s' with
                        | (Ok xs, s'') => (Ok (x :: xs), s'')
                        | (Err e, s'') => (Err e, s'')
                        end
        | (Err StopIteration, s') => (Ok [], s')
        | (Err e, s') => (Err e, s')
        end
  end.

(** What [ESIRequestsClient.request] and [ESICallableOperation.__call__]
    return: the page generator, or the resolved first page. *)
Inductive CallResult :=
| Iterator (g : Gen)
| Value (v : Json).

(** [ESIRequestsClient]: the user agent and the cache it hands to every page
    generator; [requests_ua] is the User-Agent a fresh session starts with. *)
Record Client := mkClient {
  requests_ua : string;
  user_agent : string;
  client_cache : option CacheImpl
}.

(** Run generator code on a generator object, in the world. *)
Definition run_gen {A} (m : GM A) (g : Gen) : WM (A * Gen) :=
  fun w => match m (g, w) with
           | (Ok a, (g', w')) => (Ok (a, g'), w')
           | (Err e, (_, w')) => (Err e, w')
           end.

(** [ESIRequestsClient.request] *)
Definition client_request (cl : Client) (req : Request) (op : option Operation)
    (token : option string) : WM CallResult :=
  let f := mkFuture (session_headers_for (requests_ua cl) token (user_agent cl)) req in
  match init_gen f (client_cache cl) with
  | inl e => raise e
  | inr g =>
      match op with
      | Some o => if paginated o then ret (Iterator g)
                  else r <- run_gen get g ;; ret (Value (fst r))
      | None => r <- run_gen get g ;; ret (Value (fst r))
      end
  end.

(** [ESICallableOperation.__call__] *)
Definition call (cl : Client) (op : Operation) (token : option string) (kwargs : dict PyVal)
    : WM CallResult :=
  match construct_request op kwargs with
  | inl e => raise e
  | inr req =>
      if require_authorization op && match token with None => true | Some _ => false end
      then raise (ESIAuthorizationError "Missing required authorization token")
      else client_request cl req (Some op) token
  end.

End Runtime.

(* ------------------------------------------------------------------ *)
(** ** [ESIClient] *)

(** [ESIClient._generate_esi_endpoint] *)
Definition generate_esi_endpoint (endpoint datasource : string) : string :=
  endpoint ++ "?datasource=" ++ datasource.

(** requests' [Response.raise_for_status]: the text of the [HTTPError] it
    raises for a response whose final URL is [url], if it raises. *)
Definition raise_for_status_msg (resp : Response) (url : string) : option string :=
  let c := status_code resp in
  if (400 <=? c) && (c <? 500) then Some (z_str c ++ " Client Error: " ++ reason resp ++ " for url: " ++ url)
  else if (500 <=? c) && (c <? 600) then Some (z_str c ++ " Server Error: " ++ reason resp ++ " for url: " ++ url)
  else None.

Section Factory.

Variable CS : Type.
(** [requests.get(url)]: the response and its final URL, or the text of the
    exception requests raises on the way (connection error, timeout, invalid
    URL). *)
Variable http_get : string -> string + (Response * string).
Variable json_loads : string -> string + Json.
(** The User-Agent of a fresh [requests.Session]. *)
Variable session_ua : string.
(** bravado's [Spec.from_dict(spec, origin_url, http_client, config)] with
    [SwaggerClient.__init__]: the loaded specification, or what they raise. *)
Variable SwaggerSpec : Type.
Variable spec_from_dict : Json -> string -> bool -> Exc + SwaggerSpec.

(** [ESIClient.get_swagger_spec]: every exception raised inside the [try] is
    re-raised as [ESIError(str(ex))]. *)
Definition get_swagger_spec (endpoint datasource : string) : Exc + Json :=
  let url := generate_esi_endpoint endpoint datasource in
  match http_get url with
  | inl msg => inl (ESIError msg)
  | inr (resp, final_url) =>
      match raise_for_status_msg resp final_url with
      | Some msg => inl (ESIError msg)
      | None =>
          match json_loads (text resp) with
          | inl msg => inl (ESIError msg)
          | inr spec => inr spec
          end
      end
  end.

(** An [ESIClient] object: its [ESIRequestsClient] and the loaded spec. *)
Record ESIClient := mkESIClient {
  http_client : Client CS;
  swagger_spec : SwaggerSpec
}.

(** [ESIClient.__init__] *)
Definition esi_client_init (spec : Json) (esi_endpoint user_agent : string) (use_models : bool)
    (cache : option (CacheImpl CS)) : Exc + ESIClient :=
  let hc := mkClient CS session_ua user_agent cache in
  match spec_from_dict spec esi_endpoint use_models with
  | inl e => inl e
  | inr s => inr (mkESIClient hc s)
  end.

(** [ESIClient.get_client] *)
Definition get_client (user_agent : string) (use_models : bool) (endpoint datasource : string)
    (cache : option (CacheImpl CS)) : Exc + ESIClient :=
  let target := generate_esi_endpoint endpoint datasource in
  match get_swagger_spec endpoint datasource with
  | inl e => inl e
  | inr spec => esi_client_init spec target user_agent use_models cache
  end.

(** The [ESIClient.cache] property and its setter. *)
Definition client_cache_prop (c : ESIClient) : option (CacheImpl CS) := client_cache CS (http_client c).

Definition set_client_cache (c : ESIClient) (x : option (CacheImpl CS)) : ESIClient :=
  let hc := http_client c in
  mkESIClient (mkClient CS (requests_ua CS hc) (user_agent CS hc) x) (swagger_spec c).

End Factory.

(* ------------------------------------------------------------------ *)
(** ** Concrete inputs *)

(** The [page] query parameter of what a future sends. *)
Definition page_param (f : Future) : option PyVal := dict_get (req_params (request f)) "page".

(** The pages [p, p+1, ..., p+n-1]. *)
Fixpoint page_range (p : Z) (n : nat) : list Z :=
  match n with
  | O => []
  | S n' => p :: page_range (p + 1) n'
  end.

Definition is_2xx (r : Response) : bool := (200 <=? status_code r) && (status_code r <? 300).

(** A character-assets-like listing: the request before any page is set. *)
Definition assets_request : Request :=
  mkRequest "GET" "https://esi.evetech.net/latest/characters/90000001/assets/"
            [("datasource", PStr "tranquility")] None [].

(** A server answering every page with status 200, the page number as payload
    and the header [X-Pages: xp]. *)
Definition pages_server (xp : string) (f : Future) : Response :=
  mkResponse 200 "OK" "[]"
             (match page_param f with Some (PInt p) => JNum p | _ => JNull end)
             [("Content-Type", "application/json"); ("X-Pages", xp)].

(** A server answering every request with the status [code] and the body [body]. *)
Definition status_server (code : Z) (body : string) (f : Future) : Response :=
  mkResponse code "Error" body JNull [("Content-Type", "application/json")].

(** [GET /characters/{character_id}/wallet/journal/]: paginated, and its
    security requirement names the [evesso] scheme. *)
Definition wallet_journal_op : Operation :=
  mkOperation "get_characters_character_id_wallet_journal" "get" "https://esi.evetech.net/latest/"
    "/characters/{character_id}/wallet/journal/"
    [mkParam "character_id" InPath true None;
     mkParam "datasource" InQuery false (Some (PStr "tranquility"));
     mkParam "page" InQuery false (Some (PInt 1))]
    [["evesso"]].

(** [GET /characters/{character_id}/wallet/]: not paginated, needs a token. *)
Definition wallet_op : Operation :=
  mkOperation "get_characters_character_id_wallet" "get" "https://esi.evetech.net/latest/"
    "/characters/{character_id}/wallet/"
    [mkParam "character_id" InPath true None;
     mkParam "datasource" InQuery false (Some (PStr "tranquility"))]
    [["evesso"]].

Definition character_kwargs : dict PyVal := [("character_id", PInt 90000001)].

Definition esy_client {CS} (c : option (CacheImpl CS)) : Client CS :=
  mkClient CS "python-requests/2.31.0" "esy-example/1.0" c.

Definition dq : string := String dquote EmptyString.

(** The body [{"error": "m"}]. *)
Definition error_body (m : string) : string :=
  "{" ++ dq ++ "error" ++ dq ++ ": " ++ dq ++ m ++ dq ++ "}".

Definition decode_error_text : string := "Expecting value: line 1 column 1 (char 0)".

(** A server rejecting every request with a 400 and an ESI error body. *)
Definition bad_request_server (f : Future) : Response :=
  mkResponse 400 "Bad Request" (error_body "Invalid page") (JObj [("error", JStr "Invalid page")])
             [("Content-Type", "application/json")].

(** A stand-in for [json.loads] on error bodies: it decodes [{"error": "m"}]
    (m without quotes or backslashes) and reports any other text as not JSON. *)
Definition error_body_loads (s : string) : string + Json :=
  let pre := (String.length (error_body "") - 2)%nat in
  let m := substring pre (String.length s - pre - 2)%nat s in
  if String.eqb (error_body m) s && negb (has_char dquote m) && negb (has_char "\"%char m)
  then inr (JObj [("error", JStr m)])
  else inl decode_error_text.

(** Call an operation and, when it hands back a page generator, advance it
    once: what the caller sees of the first page. *)
Definition first_page {CS} hash_str parsedate_fields json_loads server (cl : Client CS) op token kwargs
    (w : World CS) : Result Json :=
  match call CS hash_str parsedate_fields json_loads server cl op token kwargs w with
  | (Ok (Iterator _ g), w') => fst (next CS hash_str parsedate_fields server (g, w'))
  | (Ok (Value _ v), _) => Ok v
  | (Err e, _) => Err e
  end.

(** A dict-like cache: entries [(key, ((payload, pages), expiry))], latest first. *)
Definition AssocCache := list (Z * ((Json * Z) * DateTime)).

Fixpoint assoc_find (s : AssocCache) (k : Z) : option ((Json * Z) * DateTime) :=
  match s with
  | [] => None
  | (k', e) :: r => if Z.eqb k k' then Some e else assoc_find r k
  end.

Definition assoc_cache : CacheImpl AssocCache :=
  mkCacheImpl AssocCache
    (Some (fun s k => option_map fst (assoc_find s k)))
    (Some (fun s k v e => (k, (v, e)) :: s))
    (Some (fun s k => match assoc_find s k with Some _ => true | None => false end)).

Definition expires_text : string := "Thu, 15 Oct 2026 12:05:00 GMT".

(** A stand-in for [parsedate] that knows the one date the examples send. *)
Definition known_dates (s : string) : option (Z * Z * Z * Z * Z * Z) :=
  if String.eqb s expires_text then Some (2026, 10, 15, 12, 5, 0) else None.

(** A server answering with one page and an [Expires] header. *)
Definition expiring_server (f : Future) : Response :=
  mkResponse 200 "OK" "[]" (JNum 42) [("X-Pages", "1"); ("Expires", expires_text)].

(** The fresh page generator of a future, without a cache. *)
Definition fresh_gen {CS} (f : Future) : Gen CS := mkGen CS f 1 1 false None.

Definition empty_world : World unit := mkWorld unit [] tt.

(** A cache object with [get] and [set] but no [__contains__]. *)
Definition cache_without_contains : CacheImpl AssocCache :=
  mkCacheImpl AssocCache (cache_get AssocCache assoc_cache) (cache_set AssocCache assoc_cache) None.

(** No [Authorization] header, neither on the session nor on the request. *)
Definition no_auth_header (f : Future) : Prop :=
  ci_get (session_headers f) "Authorization" = None /\
  ci_get (req_headers (request f)) "Authorization" = None.

(** A stand-in for [requests.get]: the ESI endpoint answers [code] with the
    body [{}]; any other URL cannot be reached. *)
Definition esi_spec_get (code : Z) (url : string) : string + (Response * string) :=
  if String.eqb url "https://esi.evetech.net/latest/swagger.json?datasource=tranquility"
  then inr (mkResponse code "Not Modified" "{}" JNull [], url)
  else inl "Max retries exceeded with url: /swagger.json".

(** A stand-in for [json.loads] that decodes [{}]. *)
Definition empty_object_loads (s : string) : string + Json :=
  if String.eqb s "{}" then inr (JObj []) else inl decode_error_text.

(** Whether [ESIPageGenerator.__init__]'s assertions hold for a cache. *)
Definition cache_complete {CS} (c : option (CacheImpl CS)) : bool :=
  match c with
  | None => true
  | Some ci =>
      match cache_get CS ci, cache_set CS ci, cache_contains CS ci with
      | Some _, Some _, Some _ => true
      | _, _, _ => false
      end
  end.

(** A cache whose [__contains__] says yes to every key while its [get]
    finds nothing: an entry that expired between the two calls. *)
Definition expiring_cache : CacheImpl unit :=
  mkCacheImpl unit (Some (fun _ _ => None)) (Some (fun s _ _ _ => s)) (Some (fun _ _ => true)).

(** The journal call with a [page] keyword argument. *)
Definition journal_page5_kwargs : dict PyVal := [("character_id", PInt 90000001); ("page", PInt 5)].

(* ------------------------------------------------------------------ *)
(** ** Properties *)

Lemma dict_set_twice {V} (d : dict V) k a b :
  dict_set (dict_set d k a) k b = dict_set d k b.
Proof.
  induction d as [|[k' v'] r IH]; simpl.
  - now rewrite String.eqb_refl.
  - destruct (String.eqb k k') eqn:E; simpl; rewrite E; [reflexivity | now rewrite IH].
Qed.

Lemma dict_get_set_same {V} (d : dict V) k v : dict_get (dict_set d k v) k = Some v.
Proof.
  induction d as [|[k' v'] r IH]; simpl.
  - now rewrite String.eqb_refl.
  - destruct (String.eqb k k') eqn:E; simpl; rewrite E; [reflexivity | exact IH].
Qed.

Lemma with_page_twice f p q : with_page (with_page f p) q = with_page f q.
Proof. unfold with_page; simpl. now rewrite dict_set_twice. Qed.

Section Pagination.

Variable CS : Type.
Variable hash_str : string -> Z.
Variable parsedate_fields : string -> option (Z * Z * Z * Z * Z * Z).
Variable server : Future -> Response.

(** One call of [__next__] without a cache, when the response to the page is
    a success whose [X-Pages] reads [n]. *)
Lemma next_step f p np (w : World CS) n :
  is_2xx (server (with_page f p)) = true ->
  x_pages (server (with_page f p)) = inr n ->
  next CS hash_str parsedate_fields server (mkGen CS f p np false None, w) =
    (Ok (payload (server (with_page f p))),
     (mkGen CS (with_page f p) (p + 1) n (p + 1 >? n) None,
      mkWorld CS (with_page f p :: net_log CS w) (cstate CS w))).
Proof.
  intros H2 HX. unfold is_2xx in H2.
  cbv [next result send x_pages set_num_pages get_gen put_gen get_world put_world
       bind ret raise get_st put_st of_sum]; simpl.
  rewrite H2. unfold x_pages in HX. simpl.
  destruct (py_int _) as [m|] eqn:E; [|discriminate]. injection HX as <-.
  simpl. destruct (p + 1 >? m); reflexivity.
Qed.

Lemma next_stopped g (w : World CS) :
  stop CS g = true ->
  next CS hash_str parsedate_fields server (g, w) = (Err StopIteration, (g, w)).
Proof. intros H. unfold next, bind, get_gen, get_st, ret; simpl. now rewrite H. Qed.

Lemma map_with_page_twice f p l :
  map (with_page (with_page f p)) l = map (with_page f) l.
Proof. apply map_ext. intros. apply with_page_twice. Qed.

Lemma page_param_with_page f p : page_param (with_page f p) = Some (PInt p).
Proof.
  unfold page_param, with_page. apply dict_get_set_same.
Qed.

(** A server that answers every page with a success and [X-Pages: n]. *)
Definition steady_pages (n : Z) : Prop :=
  forall fu, is_2xx (server fu) = true /\ x_pages (server fu) = inr n.

(** From page [p], [m] pages before the last one, the loop fetches
    [p, ..., p + m] and then stops. *)
Lemma drain_from n m : forall p f np (w : World CS) fuel,
  steady_pages n ->
  1 <= p -> p + Z.of_nat m = Z.max n 1 -> (m + 2 <= fuel)%nat ->
  drain CS hash_str parsedate_fields server fuel (mkGen CS f p np false None, w) =
    (Ok (map (fun fu => payload (server fu)) (map (with_page f) (page_range p (S m)))),
     (mkGen CS (with_page f (p + Z.of_nat m)) (p + Z.of_nat m + 1) n true None,
      mkWorld CS (rev (map (with_page f) (page_range p (S m))) ++ net_log CS w) (cstate CS w))).
Proof.
  induction m as [|m IH]; intros p f np w fuel Hs Hp Hk Hf;
    (destruct fuel as [|fuel]; [lia|]);
    destruct (Hs (with_page f p)) as [H2 HX];
    simpl drain; rewrite (next_step f p np w n H2 HX).
  - assert (Hstop : (p + 1 >? n) = true) by lia.
    rewrite Hstop.
    destruct fuel as [|fuel]; [lia|]. simpl drain.
    simpl. rewrite Z.add_0_r. reflexivity.
  - assert (Hstop : (p + 1 >? n) = false) by lia.
    rewrite Hstop.
    rewrite (IH (p + 1) (with_page f p) n _ fuel Hs) by lia.
    rewrite map_with_page_twice, with_page_twice.
    replace (p + 1 + Z.of_nat m) with (p + Z.of_nat (S m)) by lia.
    change (page_range p (S (S m))) with (p :: page_range (p + 1) (S m)).
    cbn [map rev]. rewrite <- app_assoc. reflexivity.
Qed.

End Pagination.

Lemma page_range_length p n : length (page_range p n) = n.
Proof. revert p; induction n; intros p; simpl; [reflexivity | now rewrite IHn]. Qed.

Lemma map_page_param_with_page f l :
  map page_param (map (with_page f) l) = map (fun p => Some (PInt p)) l.
Proof. induction l as [|x l IH]; simpl; [reflexivity | now rewrite page_param_with_page, IH]. Qed.

(** The request every example call starts from. *)
Definition assets_future : Future := mkFuture [] assets_request.

Definition cached_gen : Gen AssocCache := mkGen AssocCache assets_future 1 1 false (Some assoc_cache).

Definition text_length_hash (s : string) : Z := Z.of_nat (String.length s).

(** C1 (amended). For a client without a cache: when every page's response
    succeeds with the same [X-Pages] value [n], iterating a fresh page
    generator (no cache) yields exactly [max n 1] results (so [n] results
    for [n >= 1]); the successive calls send
    [page] = 1, 2, ..., [max n 1], one network request each; the next advance
    after the last page raises [StopIteration]. *)
Theorem paginated_iteration_yields_pages (CS : Type) hash_str parsedate_fields server n fuel f
    (w : World CS) :
  steady_pages server n ->
  (Z.to_nat (Z.max n 1) < fuel)%nat ->
  let pages := page_range 1 (Z.to_nat (Z.max n 1)) in
  length pages = Z.to_nat (Z.max n 1) /\
  map page_param (map (with_page f) pages) = map (fun p => Some (PInt p)) pages /\
  exists g' w',
    drain CS hash_str parsedate_fields server fuel (fresh_gen f, w) =
      (Ok (map (fun fu => payload (server fu)) (map (with_page f) pages)), (g', w')) /\
    net_log CS w' = (rev (map (with_page f) pages) ++ net_log CS w)%list /\
    next CS hash_str parsedate_fields server (g', w') = (Err StopIteration, (g', w')).
Proof.
  intros Hs Hf pages.
  split; [apply page_range_length|]. split; [apply map_page_param_with_page|].
  assert (HK : exists m, Z.to_nat (Z.max n 1) = S m) by (exists (Nat.pred (Z.to_nat (Z.max n 1))); lia).
  destruct HK as [m HK]. unfold pages. rewrite HK. rewrite HK in Hf.
  unfold fresh_gen.
  rewrite (drain_from CS hash_str parsedate_fields server n m 1 f 1 w fuel Hs) by lia.
  eexists; eexists; split; [reflexivity|]. split; [reflexivity|].
  apply next_stopped. reflexivity.
Qed.

(** The hypotheses of [paginated_iteration_yields_pages] hold for a listing of
    three pages, which it then iterates as pages 1, 2, 3. *)
Lemma paginated_iteration_yields_pages_witness :
  steady_pages (pages_server "3") 3 /\
  exists g' w',
    drain unit (fun _ => 0) (fun _ => None) (pages_server "3") 5 (fresh_gen assets_future, empty_world) =
      (Ok [JNum 1; JNum 2; JNum 3], (g', w')).
Proof.
  assert (Hs : steady_pages (pages_server "3") 3) by (intros fu; split; reflexivity).
  split; [exact Hs|].
  destruct (paginated_iteration_yields_pages unit (fun _ => 0) (fun _ => None) (pages_server "3")
              3 5 assets_future empty_world Hs ltac:(simpl; lia)) as [_ [_ [g' [w' [H _]]]]].
  exists g', w'. rewrite H. reflexivity.
Defined.

(** C1, as stated, fails: with [X-Pages: 0] the iteration still yields one
    result (page 1), while the page count it read is 0. *)
Lemma iteration_xpages_zero_cex :
  let r := drain unit (fun _ => 0) (fun _ => None) (pages_server "0") 5
                 (fresh_gen assets_future, empty_world) in
  fst r = Ok [JNum 1] /\ num_pages unit (fst (snd r)) = 0.
Proof. vm_compute. split; reflexivity. Qed.

(** *** Authorization *)

(** C2 (amended). For an operation whose security requirements name
    [evesso], a call without a token never reaches the transport (the world,
    network log included, is unchanged) and raises [ESIAuthorizationError]
    whenever bravado accepts the keyword arguments; when it does not, its
    request-construction error is raised instead. *)
Theorem missing_token_raises_before_network (CS : Type) hash_str parsedate_fields json_loads server
    (cl : Client CS) op kwargs (w : World CS) :
  require_authorization op = true ->
  call CS hash_str parsedate_fields json_loads server cl op None kwargs w =
    (Err (match construct_request op kwargs with
          | inl e => e
          | inr _ => ESIAuthorizationError "Missing required authorization token"
          end), w).
Proof.
  intros H. unfold call. destruct (construct_request op kwargs); [reflexivity|].
  rewrite H. reflexivity.
Qed.

Lemma missing_token_raises_before_network_witness :
  require_authorization wallet_journal_op = true /\
  call unit (fun _ => 0) (fun _ => None) error_body_loads (pages_server "1") (esy_client None)
       wallet_journal_op None character_kwargs empty_world =
    (Err (ESIAuthorizationError "Missing required authorization token"), empty_world).
Proof.
  split; [reflexivity|].
  rewrite (missing_token_raises_before_network unit (fun _ => 0) (fun _ => None) error_body_loads
             (pages_server "1") (esy_client None) wallet_journal_op character_kwargs empty_world
             eq_refl).
  reflexivity.
Defined.

(** C2, as stated, fails: without a token and without the required
    [character_id], the call raises bravado's [SwaggerMappingError], not the
    authorization error (request construction runs before the token check). *)
Lemma missing_token_and_parameter_cex :
  require_authorization wallet_journal_op = true /\
  call unit (fun _ => 0) (fun _ => None) error_body_loads (pages_server "1") (esy_client None)
       wallet_journal_op None [] empty_world =
    (Err (SwaggerMappingError "character_id is a required parameter"), empty_world).
Proof. split; vm_compute; reflexivity. Qed.

(** *** Error mapping *)

Section Errors.

Variable CS : Type.
Variable hash_str : string -> Z.
Variable parsedate_fields : string -> option (Z * Z * Z * Z * Z * Z).
Variable json_loads : string -> string + Json.
Variable server : Future -> Response.

(** [get] turns a 403 raised by [result] into [ESIForbidden('Access denied')],
    whatever the body. *)
Lemma get_forbidden (s : Gen CS * World CS) r :
  fst (result CS hash_str parsedate_fields server s) = Err (HTTPError 403 r) ->
  fst (get CS hash_str parsedate_fields json_loads server s) = Err (ESIForbidden "Access denied").
Proof.
  unfold get, catch. destruct (result CS hash_str parsedate_fields server s) as [[a|e] s'].
  - discriminate.
  - simpl. intros H. injection H as ->. reflexivity.
Qed.

(** [get] turns a 404 raised by [result] into [ESINotFound] with the text
    extracted from the body. *)
Lemma get_not_found (s : Gen CS * World CS) r :
  fst (result CS hash_str parsedate_fields server s) = Err (HTTPError 404 r) ->
  fst (get CS hash_str parsedate_fields json_loads server s) = Err (ESINotFound (not_found_msg json_loads r)).
Proof.
  unfold get, catch. destruct (result CS hash_str parsedate_fields server s) as [[a|e] s'].
  - discriminate.
  - simpl. intros H. injection H as ->. reflexivity.
Qed.

(** [__next__] calls [result], not [get]: whatever [result] raises reaches the
    caller as it is. *)
Lemma next_propagates g (w : World CS) e :
  stop CS g = false ->
  fst (result CS hash_str parsedate_fields server
         (mkGen CS (with_page (future CS g) (page CS g)) (page CS g) (num_pages CS g) (stop CS g) (cache CS g), w))
    = Err e ->
  fst (next CS hash_str parsedate_fields server (g, w)) = Err e.
Proof.
  intros Hs. unfold next, bind at 1, get_gen, get_st, ret, bind at 1. simpl. rewrite Hs.
  unfold put_gen, get_st, put_st, bind. simpl.
  destruct (result CS hash_str parsedate_fields server _) as [[a|e'] s']; simpl.
  - discriminate.
  - intros H; exact H.
Qed.

End Errors.

(** C3 (code bug). On the non-paginated wallet call a 403 surfaces as
    [ESIForbidden('Access denied')], but on the paginated journal the first
    page's 403 reaches the caller as bravado's [HTTPForbidden]: [__next__]
    does not go through [get]'s error mapping. *)
Lemma forbidden_page_unwrapped :
  first_page (fun _ => 0) (fun _ => None) error_body_loads (status_server 403 "{}") (esy_client None)
             wallet_op (Some "tok") character_kwargs empty_world
    = Err (ESIForbidden "Access denied") /\
  first_page (fun _ => 0) (fun _ => None) error_body_loads (status_server 403 "{}") (esy_client None)
             wallet_journal_op (Some "tok") character_kwargs empty_world
    = Err (HTTPError 403 (status_server 403 "{}" assets_future)).
Proof. split; vm_compute; reflexivity. Qed.

(** The message [get] gives a not-found error: the [error] field of a JSON
    object body, or the decoder's error text for a body that is not JSON. *)
Lemma not_found_msg_error_field json_loads r m :
  json_loads (text r) = inr (JObj [("error", JStr m)]) -> not_found_msg json_loads r = m.
Proof. intros H. unfold not_found_msg. now rewrite H. Qed.

Lemma not_found_msg_undecodable json_loads r e :
  json_loads (text r) = inl e -> not_found_msg json_loads r = e.
Proof. intros H. unfold not_found_msg. now rewrite H. Qed.

Lemma error_body_loads_decodes :
  error_body_loads (error_body "Character not found") = inr (JObj [("error", JStr "Character not found")]).
Proof. vm_compute. reflexivity. Qed.

(** C6 (code bug, the defect of C3). On the non-paginated wallet call a 404
    with body [{"error": "Character not found"}] surfaces as [ESINotFound]
    with that message, and an HTML body as [ESINotFound] with the decoder's
    text; on the paginated journal the same 404 reaches the caller as
    bravado's [HTTPNotFound]. *)
Lemma not_found_page_unwrapped :
  first_page (fun _ => 0) (fun _ => None) error_body_loads
             (status_server 404 (error_body "Character not found")) (esy_client None)
             wallet_op (Some "tok") character_kwargs empty_world
    = Err (ESINotFound "Character not found") /\
  first_page (fun _ => 0) (fun _ => None) error_body_loads
             (status_server 404 "<html>Not Found</html>") (esy_client None)
             wallet_op (Some "tok") character_kwargs empty_world
    = Err (ESINotFound decode_error_text) /\
  first_page (fun _ => 0) (fun _ => None) error_body_loads
             (status_server 404 (error_body "Character not found")) (esy_client None)
             wallet_journal_op (Some "tok") character_kwargs empty_world
    = Err (HTTPError 404 (status_server 404 (error_body "Character not found") assets_future)).
Proof. split; [|split]; vm_compute; reflexivity. Qed.

(** *** The cache key *)

Lemma get_cache_key_key_text CS hash_str (g : Gen CS) :
  get_cache_key CS hash_str g =
    let '(u, pt, at', ht, m) := key_text CS g in cache_key_of hash_str u pt at' ht m (page CS g).
Proof. unfold get_cache_key, key_text. cbv beta iota zeta. apply eq_refl. Qed.

Lemma cache_key_same_tuple CS hash_str (g1 g2 : Gen CS) :
  key_text CS g1 = key_text CS g2 -> page CS g1 = page CS g2 ->
  get_cache_key CS hash_str g1 = get_cache_key CS hash_str g2.
Proof. intros Ht Hp. rewrite !get_cache_key_key_text, Ht, Hp. reflexivity. Qed.

(** [tuplehash] is a signed 64-bit integer: there are [2^64] keys. *)
Lemma tuple_hash_range l : - 2 ^ 63 <= tuple_hash l < 2 ^ 63.
Proof.
  unfold tuple_hash. cbv zeta.
  set (acc := u64 _).
  assert (Ha : 0 <= acc < 2 ^ 64) by (apply Z.mod_pos_bound; lia).
  destruct (acc =? 2 ^ 64 - 1); [lia|].
  unfold to_signed64. destruct (acc <? 2 ^ 63) eqn:E;
    [apply Z.ltb_lt in E | apply Z.ltb_ge in E]; lia.
Qed.

Lemma bounded_search (f : nat -> Z) v k :
  (exists x, (x < k)%nat /\ f x = v) \/ (forall x, (x < k)%nat -> f x <> v).
Proof.
  induction k as [|k [IH|IH]].
  - right. intros x Hx. lia.
  - left. destruct IH as [x [Hx Hf]]. exists x. split; [lia | exact Hf].
  - destruct (Z.eq_dec (f k) v) as [E|E].
    + left. exists k. split; [lia | exact E].
    + right. intros x Hx. destruct (Nat.eq_dec x k) as [->|Hne]; [exact E|].
      apply IH. lia.
Qed.

(** The pigeonhole principle: [n] arguments, fewer than [n] values. *)
Lemma pigeonhole (m : nat) : forall n (f : nat -> Z) a,
  (m < n)%nat -> (forall x, (x < n)%nat -> a <= f x < a + Z.of_nat m) ->
  exists x y, (x < y < n)%nat /\ f x = f y.
Proof.
  induction m as [|m IH]; intros n f a Hn Hf.
  - specialize (Hf 0%nat Hn). lia.
  - destruct (bounded_search f (f (n - 1)%nat) (n - 1)) as [[x [Hx E]]|Hnone].
    + exists x, (n - 1)%nat. split; [lia | exact E].
    + set (v := f (n - 1)%nat) in *.
      assert (Hv : a <= v < a + Z.of_nat (S m)) by (apply Hf; lia).
      destruct (IH (n - 1)%nat (fun x => if f x <? v then f x else f x - 1) a)
        as [x [y [Hxy E]]].
      * lia.
      * intros x Hx. pose proof (Hf x ltac:(lia)). pose proof (Hnone x Hx).
        destruct (f x <? v) eqn:L; [apply Z.ltb_lt in L | apply Z.ltb_ge in L]; lia.
      * exists x, y. split; [lia|].
        pose proof (Hnone x ltac:(lia)). pose proof (Hnone y ltac:(lia)).
        destruct (f x <? v) eqn:Lx, (f y <? v) eqn:Ly;
          try apply Z.ltb_lt in Lx; try apply Z.ltb_ge in Lx;
          try apply Z.ltb_lt in Ly; try apply Z.ltb_ge in Ly; lia.
Qed.

(** Whatever the string hash, the generators [__next__] builds for pages
    1 to [2^64 + 1] of one request (the page written into the params, then
    hashed with them) do not all have different keys. *)
Lemma page_keys_collide CS hash_str (f : Future) np c :
  exists p q, 1 <= p /\ p < q /\ q <= 2 ^ 64 + 1 /\
    get_cache_key CS hash_str (mkGen CS (with_page f p) p np false c) =
    get_cache_key CS hash_str (mkGen CS (with_page f q) q np false c).
Proof.
  set (K := fun x : nat => let p := Z.of_nat x + 1 in
                           get_cache_key CS hash_str (mkGen CS (with_page f p) p np false c)).
  assert (Hm : Z.of_nat (Z.to_nat (2 ^ 64)) = 2 ^ 64) by (apply Z2Nat.id; lia).
  generalize dependent (Z.to_nat (2 ^ 64)). intros m Hm.
  destruct (pigeonhole m (S m) K (- 2 ^ 63)) as [x [y [Hxy E]]].
  - lia.
  - intros x _. unfold K. cbv beta zeta. unfold get_cache_key, cache_key_of.
    match goal with |- context [tuple_hash ?l] => pose proof (tuple_hash_range l) end.
    lia.
  - exists (Z.of_nat x + 1), (Z.of_nat y + 1). split; [lia|]. split; [lia|]. split; [lia | exact E].
Qed.

(** C4 (amended). The key is a function of the URL, [str] of the params, of
    the auth and of the headers, the method and the page: the same tuple
    always gives the same key. Different tuples may share a key: for every
    string hash and every request, two of the pages 1 to [2^64 + 1] that
    [__next__] requests (different page, different [page] parameter) get
    the same key. *)
Theorem cache_key_of_request_tuple (CS : Type) hash_str :
  (forall g1 g2 : Gen CS, key_text CS g1 = key_text CS g2 -> page CS g1 = page CS g2 ->
     get_cache_key CS hash_str g1 = get_cache_key CS hash_str g2) /\
  (forall (f : Future) np c, exists p q, 1 <= p /\ p < q /\ q <= 2 ^ 64 + 1 /\
     get_cache_key CS hash_str (mkGen CS (with_page f p) p np false c) =
     get_cache_key CS hash_str (mkGen CS (with_page f q) q np false c)).
Proof.
  split.
  - apply cache_key_same_tuple.
  - apply page_keys_collide.
Qed.

Lemma cache_key_of_request_tuple_witness :
  get_cache_key unit text_length_hash (fresh_gen assets_future)
    = get_cache_key unit text_length_hash (mkGen unit assets_future 1 7 true None).
Proof.
  apply (proj1 (cache_key_of_request_tuple unit text_length_hash)); reflexivity.
Defined.

(** C4, as stated, fails: with the example cache and string hash, two of
    the pages 1 to [2^64 + 1] of the assets listing, different pages with
    different [page] parameters, share a cache key. *)
Lemma cache_key_page_collision_cex :
  exists p q, 1 <= p /\ p < q /\ q <= 2 ^ 64 + 1 /\
    page_param (with_page assets_future p) <> page_param (with_page assets_future q) /\
    get_cache_key AssocCache text_length_hash
      (mkGen AssocCache (with_page assets_future p) p 1 false (Some assoc_cache)) =
    get_cache_key AssocCache text_length_hash
      (mkGen AssocCache (with_page assets_future q) q 1 false (Some assoc_cache)).
Proof.
  destruct (page_keys_collide AssocCache text_length_hash assets_future 1 (Some assoc_cache))
    as [p [q [H1 [H2 [H3 E]]]]].
  exists p, q. do 3 (split; [assumption|]). split; [|exact E].
  rewrite !page_param_with_page. intros H. injection H. lia.
Qed.

(** *** The page count header *)

Definition with_num_pages {CS} (g : Gen CS) (n : Z) : Gen CS :=
  mkGen CS (future CS g) (page CS g) n (stop CS g) (cache CS g).


Section XPages.

Variable CS : Type.
Variable hash_str : string -> Z.
Variable parsedate_fields : string -> option (Z * Z * Z * Z * Z * Z).
Variable json_loads : string -> string + Json.
Variable server : Future -> Response.






End XPages.




(** *** The cache *)

Section Caching.

Variable CS : Type.
Variable hash_str : string -> Z.
Variable parsedate_fields : string -> option (Z * Z * Z * Z * Z * Z).
Variable server : Future -> Response.

Ltac run_monad :=
  cbv [result cache_has cache_lookup cache_store send set_num_pages get_gen put_gen get_world
       put_world bind ret raise get_st put_st of_sum fst snd].

(** A cache miss: one request, then the page count and the expiry are read
    and the entry is stored, unless reading the expiry raises. *)
Lemma result_miss (g : Gen CS) (w : World CS) ci cs cc n :
  cache CS g = Some ci -> cache_set CS ci = Some cs -> cache_contains CS ci = Some cc ->
  cc (cstate CS w) (get_cache_key CS hash_str g) = false ->
  is_2xx (server (future CS g)) = true ->
  x_pages (server (future CS g)) = inr n ->
  result CS hash_str parsedate_fields server (g, w) =
    match expires_of parsedate_fields (server (future CS g)) with
    | inl e => (Err e, (with_num_pages g n, mkWorld CS (future CS g :: net_log CS w) (cstate CS w)))
    | inr dt =>
        (Ok (payload (server (future CS g))),
         (with_num_pages g n,
          mkWorld CS (future CS g :: net_log CS w)
                  (cs (cstate CS w) (get_cache_key CS hash_str g) (payload (server (future CS g)), n) dt)))
    end.
Proof.
  intros Hc Hs Hcc Hmiss H2 HX. unfold is_2xx in H2.
  run_monad. rewrite Hc. run_monad. rewrite Hcc, Hmiss. rewrite H2, HX.
  destruct (expires_of parsedate_fields (server (future CS g))) as [e|dt];
    [reflexivity|]. rewrite Hs. reflexivity.
Qed.

(** A cache hit: no request; the stored payload and page count are used. *)
Lemma result_hit (g : Gen CS) (w : World CS) ci cg cc d n :
  cache CS g = Some ci -> cache_get CS ci = Some cg -> cache_contains CS ci = Some cc ->
  cc (cstate CS w) (get_cache_key CS hash_str g) = true ->
  cg (cstate CS w) (get_cache_key CS hash_str g) = Some (d, n) ->
  result CS hash_str parsedate_fields server (g, w) = (Ok d, (with_num_pages g n, w)).
Proof.
  intros Hc Hg Hcc Hhit Hv.
  run_monad. rewrite Hc. run_monad. rewrite Hcc, Hhit, Hg, Hv. reflexivity.
Qed.

End Caching.

(** C7. With a cache that keeps what is [set] (membership and [get] of the
    key just set), a miss whose response has a valid [Expires] stores
    (payload, page count) under the key, and a second generator with the same
    (URL, params, auth, headers, method, page) reads that entry: same payload
    and page count, and the world, network log included, is untouched. *)
Theorem cached_response_reused (CS : Type) hash_str parsedate_fields server (ci : CacheImpl CS)
    cg cs cc (g1 g2 : Gen CS) (w : World CS) n e :
  cache_get CS ci = Some cg -> cache_set CS ci = Some cs -> cache_contains CS ci = Some cc ->
  (forall st k v ex, cc (cs st k v ex) k = true) ->
  (forall st k v ex, cg (cs st k v ex) k = Some v) ->
  cache CS g1 = Some ci -> cache CS g2 = Some ci ->
  key_text CS g1 = key_text CS g2 -> page CS g1 = page CS g2 ->
  cc (cstate CS w) (get_cache_key CS hash_str g1) = false ->
  is_2xx (server (future CS g1)) = true ->
  x_pages (server (future CS g1)) = inr n ->
  expires_of parsedate_fields (server (future CS g1)) = inr e ->
  let r := server (future CS g1) in
  let w1 := mkWorld CS (future CS g1 :: net_log CS w)
                    (cs (cstate CS w) (get_cache_key CS hash_str g1) (payload r, n) e) in
  result CS hash_str parsedate_fields server (g1, w) = (Ok (payload r), (with_num_pages g1 n, w1)) /\
  result CS hash_str parsedate_fields server (g2, w1) = (Ok (payload r), (with_num_pages g2 n, w1)).
Proof.
  intros Hg Hs Hc Lc Lg H1 H2 Ht Hp Hmiss H2xx HX HE r w1.
  assert (Hk : get_cache_key CS hash_str g2 = get_cache_key CS hash_str g1).
  { apply cache_key_same_tuple; [now rewrite Ht | symmetry; exact Hp]. }
  split.
  - rewrite (result_miss CS hash_str parsedate_fields server g1 w ci cs cc n H1 Hs Hc Hmiss H2xx HX).
    rewrite HE. reflexivity.
  - apply (result_hit CS hash_str parsedate_fields server g2 w1 ci cg cc); auto;
      unfold w1; simpl; rewrite Hk; auto.
Qed.

Lemma cached_response_reused_witness :
  let r := expiring_server assets_future in
  let w1 := mkWorld AssocCache [assets_future]
              [(get_cache_key AssocCache text_length_hash cached_gen,
                ((payload r, 1), mkDateTime 2026 10 15 12 5 0 0 "UTC"))] in
  result AssocCache text_length_hash known_dates expiring_server (cached_gen, mkWorld AssocCache [] [])
    = (Ok (JNum 42), (with_num_pages cached_gen 1, w1)) /\
  result AssocCache text_length_hash known_dates expiring_server (cached_gen, w1)
    = (Ok (JNum 42), (with_num_pages cached_gen 1, w1)).
Proof.
  apply (cached_response_reused AssocCache text_length_hash known_dates expiring_server assoc_cache
           _ _ _ cached_gen cached_gen (mkWorld AssocCache [] []) 1 (mkDateTime 2026 10 15 12 5 0 0 "UTC")
           eq_refl eq_refl eq_refl).
  - intros st k v ex. simpl. now rewrite Z.eqb_refl.
  - intros st k v ex. simpl. now rewrite Z.eqb_refl.
  - reflexivity.
  - reflexivity.
  - reflexivity.
  - reflexivity.
  - reflexivity.
  - reflexivity.
  - vm_compute. reflexivity.
  - vm_compute. reflexivity.
Defined.

Lemma py_datetime_fields y mo d hh mi ss us tz dt :
  py_datetime [y; mo; d; hh; mi; ss; us] tz = inr dt -> dt = mkDateTime y mo d hh mi ss us tz.
Proof.
  unfold py_datetime. simpl.
  repeat match goal with |- context [if ?b then _ else _] => destruct b end;
    intros H; inversion H; reflexivity.
Qed.

(** C8. On a cache miss, after the page count is read: with no [Expires]
    header, reading the expiry raises [TypeError] and nothing is stored; with
    an [Expires] value that [parsedate] reads as a valid date and time, the
    entry is stored with that date and time as its expiry, in UTC (the zone
    offset is not read). *)
Theorem expires_required_for_cache_write (CS : Type) hash_str parsedate_fields server
    (ci : CacheImpl CS) cs cc (g : Gen CS) (w : World CS) n :
  cache CS g = Some ci -> cache_set CS ci = Some cs -> cache_contains CS ci = Some cc ->
  cc (cstate CS w) (get_cache_key CS hash_str g) = false ->
  is_2xx (server (future CS g)) = true ->
  x_pages (server (future CS g)) = inr n ->
  let r := server (future CS g) in
  let logged := future CS g :: net_log CS w in
  (ci_get (resp_headers r) "expires" = None ->
   result CS hash_str parsedate_fields server (g, w) =
     (Err (TypeError "'NoneType' object is not subscriptable"),
      (with_num_pages g n, mkWorld CS logged (cstate CS w)))) /\
  (forall v y mo d hh mi ss dt,
   ci_get (resp_headers r) "expires" = Some v -> v <> "" ->
   parsedate_fields v = Some (y, mo, d, hh, mi, ss) ->
   py_datetime [y; mo; d; hh; mi; ss; 0] "UTC" = inr dt ->
   dt = mkDateTime y mo d hh mi ss 0 "UTC" /\
   result CS hash_str parsedate_fields server (g, w) =
     (Ok (payload r),
      (with_num_pages g n,
       mkWorld CS logged (cs (cstate CS w) (get_cache_key CS hash_str g) (payload r, n) dt)))).
Proof.
  intros Hc Hs Hcc Hmiss H2 HX r logged.
  rewrite (result_miss CS hash_str parsedate_fields server g w ci cs cc n Hc Hs Hcc Hmiss H2 HX).
  unfold expires_of. fold r. split.
  - intros Hnone. rewrite Hnone. reflexivity.
  - intros v y mo d hh mi ss dt Hv Hne Hp Hdt. rewrite Hv.
    destruct v as [|c v']; [contradiction|]. simpl py_parsedate. rewrite Hp.
    simpl firstn. rewrite Hdt. split; [|reflexivity].
    revert Hdt. apply py_datetime_fields.
Qed.

(** [expires_required_for_cache_write] at a response without [Expires]:
    nothing is stored. *)
Lemma expires_required_for_cache_write_witness :
  result AssocCache text_length_hash known_dates (pages_server "1") (cached_gen, mkWorld AssocCache [] [])
    = (Err (TypeError "'NoneType' object is not subscriptable"),
       (with_num_pages cached_gen 1, mkWorld AssocCache [assets_future] [])).
Proof.
  apply (expires_required_for_cache_write AssocCache text_length_hash known_dates (pages_server "1")
           assoc_cache _ _ cached_gen (mkWorld AssocCache [] []) 1 eq_refl eq_refl eq_refl).
  - reflexivity.
  - reflexivity.
  - reflexivity.
  - reflexivity.
Defined.

(** *** What goes over the wire *)

Section Transport.

Variable CS : Type.
Variable hash_str : string -> Z.
Variable parsedate_fields : string -> option (Z * Z * Z * Z * Z * Z).
Variable json_loads : string -> string + Json.
Variable server : Future -> Response.

Ltac run_monad :=
  cbv [result cache_has cache_lookup cache_store send set_num_pages get_gen put_gen get_world
       put_world bind ret raise get_st put_st of_sum fst snd].

(** Case on the innermost pending [match] of the goal, repeatedly. *)
Ltac split_inner :=
  repeat (simpl; match goal with
                 | |- context [match ?x with _ => _ end] =>
                     lazymatch x with
                     | context [match _ with _ => _ end] => fail
                     | (_, _) => fail
                     | _ => destruct x
                     end
                 end).

(** [result] keeps the generator's future and sends it at most once. *)
Lemma result_sends_own_future (g : Gen CS) (w : World CS) r g' w' :
  result CS hash_str parsedate_fields server (g, w) = (r, (g', w')) ->
  future CS g' = future CS g /\
  (net_log CS w' = net_log CS w \/ net_log CS w' = future CS g :: net_log CS w).
Proof.
  run_monad.
  split_inner; intros H; inversion H; subst; simpl; auto.
Qed.

(** [get] likewise: its handler only re-raises. *)
Lemma get_sends_own_future (g : Gen CS) (w : World CS) r g' w' :
  get CS hash_str parsedate_fields json_loads server (g, w) = (r, (g', w')) ->
  net_log CS w' = net_log CS w \/ net_log CS w' = future CS g :: net_log CS w.
Proof.
  unfold get, catch.
  destruct (result CS hash_str parsedate_fields server (g, w)) as [[a|e] [g1 w1]] eqn:Hr;
    apply result_sends_own_future in Hr; destruct Hr as [_ Hl].
  - intros H; injection H as _ _ <-. exact Hl.
  - destruct e; simpl;
      repeat match goal with |- context [if ?b then _ else _] => destruct b end;
      intros H; injection H as _ _ <-; exact Hl.
Qed.

(** Neither raises [ESIAuthorizationError]: no code path of the generator does. *)
Lemma get_no_authorization_error (g : Gen CS) (w : World CS) m s :
  get CS hash_str parsedate_fields json_loads server (g, w) <> (Err (ESIAuthorizationError m), s).
Proof.
  unfold get, catch.
  destruct (result CS hash_str parsedate_fields server (g, w)) as [[a|e] [g1 w1]] eqn:Hr;
    [discriminate|].
  destruct e; simpl;
    repeat match goal with |- context [if ?b then _ else _] => destruct b end;
    try discriminate.
  revert Hr. run_monad. unfold x_pages, expires_of, py_datetime.
  split_inner; intros H; discriminate H.
Qed.

End Transport.

Lemma construct_request_headers op kwargs req :
  construct_request op kwargs = inr req -> req_headers req = [].
Proof.
  unfold construct_request.
  destruct (marshal_kwargs _ _ _ _) as [e|[rem [u ps]]]; [discriminate|].
  destruct (marshal_remaining rem (u, ps)) as [e|[u' ps']]; [discriminate|].
  intros H. injection H as <-. reflexivity.
Qed.

Lemma marshal_kwargs_error op rem kwargs req e :
  marshal_kwargs op rem kwargs req = inl e -> exists s, e = SwaggerMappingError s.
Proof.
  induction kwargs as [|[k v] r IH] in rem, req |- *; simpl; [discriminate|].
  destruct (pop_param rem k) as [[p rem']|]; [apply IH|].
  intros H; injection H as <-; eauto.
Qed.

Lemma marshal_remaining_error rem req e :
  marshal_remaining rem req = inl e -> exists s, e = SwaggerMappingError s.
Proof.
  induction rem as [|p r IH] in req |- *; simpl; [discriminate|].
  destruct (param_required p); [intros H; injection H as <-; eauto|].
  destruct (param_default p); apply IH.
Qed.

(** [construct_request] fails only with a [SwaggerMappingError]. *)
Lemma construct_request_error op kwargs e :
  construct_request op kwargs = inl e -> exists s, e = SwaggerMappingError s.
Proof.
  unfold construct_request.
  destruct (marshal_kwargs _ _ _ _) as [e'|[rem [u ps]]] eqn:Hk.
  - intros H; injection H as <-. exact (marshal_kwargs_error _ _ _ _ _ Hk).
  - destruct (marshal_remaining rem (u, ps)) as [e'|[u' ps']] eqn:Hm; [|discriminate].
    intros H; injection H as <-. exact (marshal_remaining_error _ _ _ Hm).
Qed.

Lemma init_gen_error (CS : Type) f (c : option (CacheImpl CS)) e :
  init_gen CS f c = inl e -> e = AssertionError.
Proof.
  unfold init_gen. destruct c as [ci|]; [|discriminate].
  destruct (cache_get CS ci), (cache_set CS ci), (cache_contains CS ci);
    try discriminate; intros H; injection H as <-; reflexivity.
Qed.

Lemma init_gen_future (CS : Type) f (c : option (CacheImpl CS)) g :
  init_gen CS f c = inr g -> future CS g = f.
Proof.
  unfold init_gen. destruct c as [ci|].
  - destruct (cache_get CS ci), (cache_set CS ci), (cache_contains CS ci);
      try discriminate; intros H; injection H as <-; reflexivity.
  - intros H; injection H as <-; reflexivity.
Qed.

Lemma empty_token_session_headers requests_ua user_agent :
  ci_get (session_headers_for requests_ua (Some "") user_agent) "Authorization" = None.
Proof. reflexivity. Qed.

(** C9. A call with [_token=''] passes the missing-token check (only [None]
    counts as missing), so it never raises [ESIAuthorizationError]; yet the
    empty string is falsy, so no [Authorization: Bearer] header is set: the
    call sends at most one request and that request carries no
    [Authorization] header, and a returned page generator carries none either,
    on every page. *)
Theorem empty_token_no_authorization_header (CS : Type) hash_str parsedate_fields json_loads server
    (cl : Client CS) op kwargs (w : World CS) :
  let res := call CS hash_str parsedate_fields json_loads server cl op (Some "") kwargs w in
  (forall m, fst res <> Err (ESIAuthorizationError m)) /\
  (net_log CS (snd res) = net_log CS w \/
   exists f, net_log CS (snd res) = f :: net_log CS w /\ no_auth_header f) /\
  (forall g, fst res = Ok (Iterator CS g) ->
   forall p, no_auth_header (with_page (future CS g) p)).
Proof.
  intros res. unfold res, call.
  destruct (construct_request op kwargs) as [e|req] eqn:Hreq.
  { simpl. apply construct_request_error in Hreq as [s0 ->].
    split; [intros m H; discriminate H|].
    split; [now left | intros g H; discriminate H]. }
  simpl (match Some "" with None => true | Some _ => false end). rewrite andb_false_r.
  pose proof (construct_request_headers op kwargs req Hreq) as Hh.
  set (f := mkFuture (session_headers_for (requests_ua CS cl) (Some "") (user_agent CS cl)) req).
  assert (Hna : no_auth_header f).
  { split; [apply empty_token_session_headers | simpl; now rewrite Hh]. }
  unfold client_request. fold f.
  destruct (init_gen CS f (client_cache CS cl)) as [e|g] eqn:Hi.
  { apply init_gen_error in Hi as ->. simpl.
    split; [intros m H; discriminate H|].
    split; [now left | intros g H; discriminate H]. }
  apply init_gen_future in Hi.
  destruct (paginated op).
  - simpl. split; [discriminate|]. split; [now left|].
    intros g' H. injection H as <-. intros p. rewrite Hi. destruct Hna as [Ha Hb].
    split; [exact Ha | simpl in *; exact Hb].
  - unfold run_gen, bind, ret.
    destruct (get CS hash_str parsedate_fields json_loads server (g, w)) as [r [g' w']] eqn:Hg.
    pose proof (get_sends_own_future CS hash_str parsedate_fields json_loads server g w r g' w' Hg)
      as Hl.
    rewrite Hi in Hl.
    assert (Hl' : net_log CS w' = net_log CS w \/
                  exists f0, net_log CS w' = f0 :: net_log CS w /\ no_auth_header f0)
      by (destruct Hl as [Hl|Hl]; [now left | right; exists f; auto]).
    destruct r as [a|e]; simpl.
    + split; [discriminate|]. split; [exact Hl' | intros g0 H; discriminate H].
    + split; [|split; [exact Hl' | intros g0 H; discriminate H]].
      intros m H; injection H as ->.
      exact (get_no_authorization_error CS hash_str parsedate_fields json_loads server g w m _ Hg).
Qed.

(** C10. A client configured with a cache object that lacks a callable [get],
    [set] or [__contains__] cannot build a page generator: [__init__]'s
    assertion fails for every future, so every request the client issues
    raises [AssertionError] with the world unchanged (nothing sent, cache
    untouched); a call raises it whenever it gets past request construction
    and the token check. *)
Theorem incomplete_cache_asserts (CS : Type) hash_str parsedate_fields json_loads server
    (cl : Client CS) (ci : CacheImpl CS) (w : World CS) :
  client_cache CS cl = Some ci ->
  cache_get CS ci = None \/ cache_set CS ci = None \/ cache_contains CS ci = None ->
  (forall f, init_gen CS f (client_cache CS cl) = inl AssertionError) /\
  (forall req op token,
     client_request CS hash_str parsedate_fields json_loads server cl req op token w
     = (Err AssertionError, w)) /\
  (forall op token kwargs req,
     construct_request op kwargs = inr req ->
     require_authorization op && match token with None => true | Some _ => false end = false ->
     call CS hash_str parsedate_fields json_loads server cl op token kwargs w
     = (Err AssertionError, w)).
Proof.
  intros Hc Hm.
  assert (Hi : forall f, init_gen CS f (client_cache CS cl) = inl AssertionError).
  { intros f. rewrite Hc. unfold init_gen.
    destruct Hm as [-> | [-> | ->]];
      [reflexivity | destruct (cache_get CS ci); reflexivity |
       destruct (cache_get CS ci), (cache_set CS ci); reflexivity]. }
  assert (Hr : forall req op token,
             client_request CS hash_str parsedate_fields json_loads server cl req op token w
             = (Err AssertionError, w)).
  { intros req op token. unfold client_request. rewrite Hi. reflexivity. }
  split; [exact Hi|]. split; [exact Hr|].
  intros op token kwargs req Hreq Ha. unfold call. rewrite Hreq, Ha. apply Hr.
Qed.

Lemma incomplete_cache_asserts_witness :
  client_request AssocCache text_length_hash known_dates error_body_loads (status_server 200 "{}")
    (esy_client (Some cache_without_contains)) assets_request None None (mkWorld AssocCache [] [])
  = (Err AssertionError, mkWorld AssocCache [] []).
Proof.
  apply (incomplete_cache_asserts AssocCache text_length_hash known_dates error_body_loads
           (status_server 200 "{}") (esy_client (Some cache_without_contains))
           cache_without_contains (mkWorld AssocCache [] [])).
  - reflexivity.
  - right; right; reflexivity.
Defined.

(** ** Further properties of the client *)

(** X2. [get_swagger_spec] raises nothing but [ESIError]: a connection
    failure, an HTTP error status and an undecodable body all surface as
    [ESIError] carrying the text of the original exception. *)
Theorem get_swagger_spec_raises_esi_error http_get json_loads endpoint datasource e :
  get_swagger_spec http_get json_loads endpoint datasource = inl e ->
  exists msg, e = ESIError msg /\
    (http_get (generate_esi_endpoint endpoint datasource) = inl msg \/
     (exists resp url, http_get (generate_esi_endpoint endpoint datasource) = inr (resp, url) /\
       (raise_for_status_msg resp url = Some msg \/ json_loads (text resp) = inl msg))).
Proof.
  unfold get_swagger_spec.
  destruct (http_get _) as [m|[resp url]].
  - intros H; injection H as <-. exists m. auto.
  - destruct (raise_for_status_msg resp url) as [m|] eqn:Hr.
    + intros H; injection H as <-. exists m. split; [reflexivity|]. right. exists resp, url. auto.
    + destruct (json_loads (text resp)) as [m|j] eqn:Hj; [|discriminate].
      intros H; injection H as <-. exists m. split; [reflexivity|]. right. exists resp, url. auto.
Qed.

Lemma get_swagger_spec_raises_esi_error_witness :
  get_swagger_spec (esi_spec_get 304) empty_object_loads "https://esi.evetech.net/dev/swagger.json"
                   "tranquility" = inl (ESIError "Max retries exceeded with url: /swagger.json") /\
  exists msg, ESIError "Max retries exceeded with url: /swagger.json" = ESIError msg /\
    (esi_spec_get 304 (generate_esi_endpoint "https://esi.evetech.net/dev/swagger.json" "tranquility")
       = inl msg \/
     (exists resp url,
        esi_spec_get 304 (generate_esi_endpoint "https://esi.evetech.net/dev/swagger.json" "tranquility")
          = inr (resp, url) /\
        (raise_for_status_msg resp url = Some msg \/ empty_object_loads (text resp) = inl msg))).
Proof.
  split; [reflexivity|].
  apply (get_swagger_spec_raises_esi_error (esi_spec_get 304) empty_object_loads
           "https://esi.evetech.net/dev/swagger.json" "tranquility"). reflexivity.
Defined.

(** X3. [get_swagger_spec] rejects a response exactly when its status is in
    400-599 ([raise_for_status]), with requests' message; any other status,
    a 304 or a 204 included, is accepted and its body decoded as the spec. *)
Theorem get_swagger_spec_status http_get json_loads endpoint datasource resp url spec :
  http_get (generate_esi_endpoint endpoint datasource) = inr (resp, url) ->
  json_loads (text resp) = inr spec ->
  let c := status_code resp in
  get_swagger_spec http_get json_loads endpoint datasource =
    if (400 <=? c) && (c <? 600)
    then inl (ESIError (z_str c ++ (if c <? 500 then " Client Error: " else " Server Error: ")
                          ++ reason resp ++ " for url: " ++ url))
    else inr spec.
Proof.
  intros Hg Hj c. unfold get_swagger_spec, raise_for_status_msg. rewrite Hg. fold c.
  destruct (400 <=? c) eqn:E1; destruct (c <? 500) eqn:E2; destruct (500 <=? c) eqn:E3;
    destruct (c <? 600) eqn:E4; simpl; try rewrite Hj; try reflexivity; lia.
Qed.

Lemma get_swagger_spec_status_witness :
  get_swagger_spec (esi_spec_get 304) empty_object_loads "https://esi.evetech.net/latest/swagger.json"
                   "tranquility" = inr (JObj []).
Proof.
  rewrite (get_swagger_spec_status (esi_spec_get 304) empty_object_loads
             "https://esi.evetech.net/latest/swagger.json" "tranquility"
             (mkResponse 304 "Not Modified" "{}" JNull [])
             "https://esi.evetech.net/latest/swagger.json?datasource=tranquility" (JObj []));
    reflexivity.
Defined.

Section Steps.

Variable CS : Type.
Variable hash_str : string -> Z.
Variable parsedate_fields : string -> option (Z * Z * Z * Z * Z * Z).
Variable server : Future -> Response.

Ltac case_inner :=
  repeat (simpl; match goal with
                 | |- context [match ?x with _ => _ end] =>
                     lazymatch x with
                     | context [match _ with _ => _ end] => fail
                     | (_, _) => fail
                     | _ => destruct x
                     end
                 end).

(** [result] changes nothing of the generator but its page count. *)
Lemma result_keeps_position (g : Gen CS) (w : World CS) r g' w' :
  result CS hash_str parsedate_fields server (g, w) = (r, (g', w')) ->
  future CS g' = future CS g /\ page CS g' = page CS g /\ stop CS g' = stop CS g /\
  cache CS g' = cache CS g.
Proof.
  cbv [result cache_has cache_lookup cache_store send set_num_pages get_gen put_gen get_world
       put_world bind ret raise get_st put_st of_sum fst snd].
  destruct (cache CS g) as [ci|] eqn:Hc;
    case_inner; intros H; inversion H; subst; simpl; auto.
Qed.

(** One [__next__] on a live generator: it sets the [page] parameter to the
    current page, sends that (or reads it from the cache), and advances the
    page only on success. *)
Lemma next_live (g : Gen CS) (w : World CS) r g' w' :
  stop CS g = false ->
  next CS hash_str parsedate_fields server (g, w) = (r, (g', w')) ->
  future CS g' = with_page (future CS g) (page CS g) /\ cache CS g' = cache CS g /\
  (net_log CS w' = net_log CS w \/
   net_log CS w' = with_page (future CS g) (page CS g) :: net_log CS w) /\
  match r with
  | Ok _ => page CS g' = page CS g + 1 /\ stop CS g' = (page CS g + 1 >? num_pages CS g')
  | Err _ => page CS g' = page CS g /\ stop CS g' = false
  end.
Proof.
  intros Hs. unfold next, bind at 1, get_gen, get_st, ret, bind at 1. simpl. rewrite Hs.
  unfold put_gen, get_st, put_st, bind. simpl.
  set (g1 := mkGen CS (with_page (future CS g) (page CS g)) (page CS g) (num_pages CS g) false (cache CS g)).
  destruct (result CS hash_str parsedate_fields server (g1, w)) as [[a|e] [g2 w2]] eqn:Hr;
    pose proof (result_sends_own_future CS hash_str parsedate_fields server g1 w _ g2 w2 Hr) as [_ Hl];
    apply result_keeps_position in Hr as (Hf & Hp & Hst & Hc); simpl in Hf, Hp, Hst, Hc;
    intros H; injection H as <- <- <-; simpl.
  - rewrite Hf, Hc, Hp, Hst. destruct (page CS g + 1 >? num_pages CS g2); auto.
  - rewrite Hf, Hc, Hp, Hst. auto.
Qed.

End Steps.

(** X5. [get] maps only 400, 403, 404 and 500: any other error status (a
    401, a 420, a 502, a 503, ...) and every error that is not an HTTP error
    (a [ValueError] from [X-Pages], a [TypeError] from [Expires]) reaches the
    caller exactly as [result] raised it. *)
Theorem get_passes_other_errors (CS : Type) hash_str parsedate_fields json_loads server
    (s : Gen CS * World CS) e s' :
  result CS hash_str parsedate_fields server s = (Err e, s') ->
  (forall code r, e = HTTPError code r -> ~ In code [400; 403; 404; 500]) ->
  get CS hash_str parsedate_fields json_loads server s = (Err e, s').
Proof.
  intros Hr Hn. unfold get, catch. rewrite Hr.
  destruct e as [|code r| | | | | | | | |]; try reflexivity.
  pose proof (Hn code r eq_refl) as Hc. cbn beta iota.
  destruct (code =? 500) eqn:E1; [apply Z.eqb_eq in E1; subst; simpl in Hc; tauto|].
  destruct (code =? 400) eqn:E2; [apply Z.eqb_eq in E2; subst; simpl in Hc; tauto|].
  destruct (code =? 404) eqn:E3; [apply Z.eqb_eq in E3; subst; simpl in Hc; tauto|].
  destruct (code =? 403) eqn:E4; [apply Z.eqb_eq in E4; subst; simpl in Hc; tauto|].
  reflexivity.
Qed.

Lemma get_passes_other_errors_witness :
  get unit text_length_hash known_dates error_body_loads (status_server 503 "")
      (fresh_gen assets_future, empty_world)
  = (Err (HTTPError 503 (status_server 503 "" assets_future)),
     (fresh_gen assets_future, mkWorld unit [assets_future] tt)).
Proof.
  apply (get_passes_other_errors unit text_length_hash known_dates error_body_loads
           (status_server 503 "")).
  - vm_compute. reflexivity.
  - intros code r H. injection H as <- _. simpl. intros [H|[H|[H|[H|[]]]]]; discriminate H.
Defined.

(** X6. [get] turns a 400 or a 500 raised by [result] into [ESIError] whose
    text is [str()] of bravado's exception: the status and the reason, and
    for the 400 the unmarshalled body after [': '] when there is one. *)
Theorem get_maps_400_500 (CS : Type) hash_str parsedate_fields json_loads server
    (s : Gen CS * World CS) code r s' :
  result CS hash_str parsedate_fields server s = (Err (HTTPError code r), s') ->
  code = 400 \/ code = 500 ->
  get CS hash_str parsedate_fields json_loads server s = (Err (ESIError (http_error_str code r)), s').
Proof.
  intros Hr Hc. unfold get, catch. rewrite Hr. cbn beta iota.
  destruct Hc as [-> | ->]; reflexivity.
Qed.

Lemma get_maps_400_500_witness :
  get unit text_length_hash known_dates error_body_loads bad_request_server
      (fresh_gen assets_future, empty_world)
  = (Err (ESIError "400 Bad Request: {'error': 'Invalid page'}"),
     (fresh_gen assets_future, mkWorld unit [assets_future] tt)).
Proof.
  apply (get_maps_400_500 unit text_length_hash known_dates error_body_loads bad_request_server
           (fresh_gen assets_future, empty_world) 400 (bad_request_server assets_future)).
  - vm_compute. reflexivity.
  - left. reflexivity.
Defined.

(** X7. The text of the [ESINotFound] that [get] raises for a 404 whose body
    decodes: [Not found] for a JSON object without an [error] key, and the
    [AttributeError] text ['list' object has no attribute 'get'] (with the
    body's type) for a body that is not a JSON object. *)
Theorem get_not_found_fallbacks (CS : Type) hash_str parsedate_fields json_loads server
    (s : Gen CS * World CS) r s' :
  result CS hash_str parsedate_fields server s = (Err (HTTPError 404 r), s') ->
  (forall kvs, json_loads (text r) = inr (JObj kvs) -> json_obj_get kvs "error" = None ->
   get CS hash_str parsedate_fields json_loads server s = (Err (ESINotFound "Not found"), s')) /\
  (forall j, json_loads (text r) = inr j -> (forall kvs, j <> JObj kvs) ->
   get CS hash_str parsedate_fields json_loads server s =
     (Err (ESINotFound ("'" ++ json_type_name j ++ "' object has no attribute 'get'")), s')).
Proof.
  intros Hr. unfold get, catch. rewrite Hr. cbn beta iota. simpl. unfold not_found_msg.
  split.
  - intros kvs Hj He. rewrite Hj, He. reflexivity.
  - intros j Hj Hn. rewrite Hj. destruct j; try reflexivity. exfalso. eapply Hn. reflexivity.
Qed.

Lemma get_not_found_fallbacks_witness :
  get unit text_length_hash known_dates empty_object_loads (status_server 404 "{}")
      (fresh_gen assets_future, empty_world)
  = (Err (ESINotFound "Not found"), (fresh_gen assets_future, mkWorld unit [assets_future] tt)).
Proof.
  apply (proj1 (get_not_found_fallbacks unit text_length_hash known_dates empty_object_loads
                  (status_server 404 "{}") (fresh_gen assets_future, empty_world)
                  (status_server 404 "{}" assets_future)
                  (fresh_gen assets_future, mkWorld unit [assets_future] tt) eq_refl) []);
    reflexivity.
Defined.

(** X8. When [__next__] raises (whatever the error), the generator keeps its
    page and is not stopped: advancing it again re-sends the same request,
    the same [page] parameter included. *)
Theorem next_failure_keeps_page (CS : Type) hash_str parsedate_fields server
    (g : Gen CS) (w : World CS) e g' w' :
  stop CS g = false ->
  next CS hash_str parsedate_fields server (g, w) = (Err e, (g', w')) ->
  page CS g' = page CS g /\ stop CS g' = false /\ cache CS g' = cache CS g /\
  with_page (future CS g') (page CS g') = with_page (future CS g) (page CS g) /\
  (net_log CS w' = net_log CS w \/
   net_log CS w' = with_page (future CS g) (page CS g) :: net_log CS w).
Proof.
  intros Hs Hn.
  destruct (next_live CS hash_str parsedate_fields server g w _ g' w' Hs Hn) as (Hf & Hc & Hl & Hp & Hst).
  rewrite Hf, Hp, with_page_twice. auto.
Qed.

Lemma next_failure_keeps_page_witness :
  next unit text_length_hash known_dates (status_server 503 "") (fresh_gen assets_future, empty_world)
  = (Err (HTTPError 503 (status_server 503 "" (with_page assets_future 1))),
     (mkGen unit (with_page assets_future 1) 1 1 false None,
      mkWorld unit [with_page assets_future 1] tt)) /\
  page unit (mkGen unit (with_page assets_future 1) 1 1 false None) = page unit (fresh_gen assets_future) /\
  stop unit (mkGen unit (with_page assets_future 1) 1 1 false None) = false /\
  cache unit (mkGen unit (with_page assets_future 1) 1 1 false None) = cache unit (fresh_gen assets_future) /\
  with_page (with_page assets_future 1) 1 = with_page assets_future 1 /\
  ([with_page assets_future 1] = [] \/ [with_page assets_future 1] = [with_page assets_future 1]).
Proof.
  assert (Hn : next unit text_length_hash known_dates (status_server 503 "")
                 (fresh_gen assets_future, empty_world)
               = (Err (HTTPError 503 (status_server 503 "" (with_page assets_future 1))),
                  (mkGen unit (with_page assets_future 1) 1 1 false None,
                   mkWorld unit [with_page assets_future 1] tt))) by (vm_compute; reflexivity).
  split; [exact Hn|].
  exact (next_failure_keeps_page unit text_length_hash known_dates (status_server 503 "")
           (fresh_gen assets_future) empty_world _ _ _ eq_refl Hn).
Defined.

Lemma init_gen_complete (CS : Type) f (c : option (CacheImpl CS)) :
  cache_complete c = true -> init_gen CS f c = inr (mkGen CS f 1 1 false c).
Proof.
  unfold cache_complete, init_gen. destruct c as [ci|]; [|reflexivity].
  destruct (cache_get CS ci), (cache_set CS ci), (cache_contains CS ci);
    try discriminate; reflexivity.
Qed.

(** X9. Calling a paginated operation sends nothing: it hands back a fresh
    generator at page 1. Its first advance sends the constructed request with
    the [page] parameter set to 1 (or reads that page from the cache), even
    when the caller passed a [page] keyword argument. *)
Theorem paginated_call_starts_at_page_one (CS : Type) hash_str parsedate_fields json_loads server
    (cl : Client CS) op token kwargs req (w : World CS) :
  paginated op = true ->
  construct_request op kwargs = inr req ->
  require_authorization op && match token with None => true | Some _ => false end = false ->
  cache_complete (client_cache CS cl) = true ->
  let f := mkFuture (session_headers_for (requests_ua CS cl) token (user_agent CS cl)) req in
  exists g,
    call CS hash_str parsedate_fields json_loads server cl op token kwargs w = (Ok (Iterator CS g), w) /\
    future CS g = f /\ page CS g = 1 /\ stop CS g = false /\
    forall r g' w', next CS hash_str parsedate_fields server (g, w) = (r, (g', w')) ->
      future CS g' = with_page f 1 /\ page_param (future CS g') = Some (PInt 1) /\
      (net_log CS w' = net_log CS w \/ net_log CS w' = with_page f 1 :: net_log CS w).
Proof.
  intros Hp Hreq Ha Hc f.
  exists (mkGen CS f 1 1 false (client_cache CS cl)).
  split.
  { unfold call. rewrite Hreq, Ha. unfold client_request. fold f.
    rewrite (init_gen_complete CS f _ Hc), Hp. reflexivity. }
  split; [reflexivity|]. split; [reflexivity|]. split; [reflexivity|].
  intros r g' w' Hn.
  destruct (next_live CS hash_str parsedate_fields server (mkGen CS f 1 1 false (client_cache CS cl))
              w r g' w' eq_refl Hn) as (Hf & _ & Hl & _).
  simpl in Hf, Hl. rewrite Hf. split; [reflexivity|]. split; [apply page_param_with_page|exact Hl].
Qed.

Lemma paginated_call_starts_at_page_one_witness :
  exists g,
    call unit text_length_hash known_dates error_body_loads (pages_server "3") (esy_client None)
         wallet_journal_op (Some "tok") journal_page5_kwargs empty_world = (Ok (Iterator unit g), empty_world) /\
    future unit g = mkFuture (session_headers_for "python-requests/2.31.0" (Some "tok") "esy-example/1.0")
                      (mkRequest "GET" "https://esi.evetech.net/latest/characters/90000001/wallet/journal/"
                         [("page", PInt 5); ("datasource", PStr "tranquility")] None []) /\
    page unit g = 1 /\ stop unit g = false /\
    forall r g' w', next unit text_length_hash known_dates (pages_server "3") (g, empty_world) = (r, (g', w')) ->
      future unit g' = with_page (future unit g) 1 /\ page_param (future unit g') = Some (PInt 1) /\
      (net_log unit w' = [] \/ net_log unit w' = [with_page (future unit g) 1]).
Proof.
  destruct (paginated_call_starts_at_page_one unit text_length_hash known_dates error_body_loads
              (pages_server "3") (esy_client None) wallet_journal_op (Some "tok") journal_page5_kwargs
              (mkRequest "GET" "https://esi.evetech.net/latest/characters/90000001/wallet/journal/"
                 [("page", PInt 5); ("datasource", PStr "tranquility")] None [])
              empty_world eq_refl (eq_refl : construct_request _ _ = _) eq_refl eq_refl)
    as (g & H1 & H2 & H3 & H4 & H5).
  exists g. split; [exact H1|]. split; [exact H2|]. split; [exact H3|]. split; [exact H4|].
  rewrite H2. exact H5.
Defined.

(** X10. What a call puts on the wire as session headers: the client's
    [User-Agent] always, in place of requests' default, and
    [Authorization: Bearer <token>] exactly when the token is a non-empty
    string. Every request the call sends carries them, and so does every page
    of a generator it hands back. *)
Theorem call_session_headers (CS : Type) hash_str parsedate_fields json_loads server
    (cl : Client CS) op token kwargs (w : World CS) :
  let h := session_headers_for (requests_ua CS cl) token (user_agent CS cl) in
  let res := call CS hash_str parsedate_fields json_loads server cl op token kwargs w in
  ci_get h "User-Agent" = Some (user_agent CS cl) /\
  ci_get h "Authorization" =
    match token with
    | Some t => if String.eqb t "" then None else Some ("Bearer " ++ t)
    | None => None
    end /\
  (net_log CS (snd res) = net_log CS w \/
   exists req, net_log CS (snd res) = mkFuture h req :: net_log CS w) /\
  (forall g, fst res = Ok (Iterator CS g) -> forall p, session_headers (with_page (future CS g) p) = h).
Proof.
  intros h res. split; [|split].
  - unfold h, session_headers_for.
    destruct token as [[|a t]|]; reflexivity.
  - unfold h, session_headers_for.
    destruct token as [[|a t]|]; reflexivity.
  - unfold res, call.
    destruct (construct_request op kwargs) as [e|req] eqn:Hreq;
      [simpl; split; [now left | intros g H; discriminate H]|].
    destruct (require_authorization op && _);
      [simpl; split; [now left | intros g H; discriminate H]|].
    unfold client_request. fold h.
    destruct (init_gen CS (mkFuture h req) (client_cache CS cl)) as [e|g] eqn:Hi;
      [simpl; split; [now left | intros g H; discriminate H]|].
    apply init_gen_future in Hi.
    destruct (paginated op).
    + simpl. split; [now left|]. intros g' H p. injection H as <-. rewrite Hi. reflexivity.
    + unfold run_gen, bind, ret.
      destruct (get CS hash_str parsedate_fields json_loads server (g, w)) as [r [g' w']] eqn:Hg.
      pose proof (get_sends_own_future CS hash_str parsedate_fields json_loads server g w r g' w' Hg)
        as Hl. rewrite Hi in Hl.
      destruct r as [a|e]; simpl;
        (split; [destruct Hl as [Hl|Hl]; [now left | right; exists req; exact Hl] |
                 intros g0 H; discriminate H]).
Qed.

(** X11. If the cache reports a key as present but its [get] then finds
    nothing (the entry expired in between), [result] raises [TypeError]
    (unpacking [None]) without fetching the page, and [get] passes that error
    on unchanged. *)
Theorem cache_entry_vanished (CS : Type) hash_str parsedate_fields json_loads server
    (g : Gen CS) (w : World CS) ci cg cc :
  cache CS g = Some ci -> cache_get CS ci = Some cg -> cache_contains CS ci = Some cc ->
  cc (cstate CS w) (get_cache_key CS hash_str g) = true ->
  cg (cstate CS w) (get_cache_key CS hash_str g) = None ->
  result CS hash_str parsedate_fields server (g, w) =
    (Err (TypeError "cannot unpack non-iterable NoneType object"), (g, w)) /\
  get CS hash_str parsedate_fields json_loads server (g, w) =
    (Err (TypeError "cannot unpack non-iterable NoneType object"), (g, w)).
Proof.
  intros Hc Hg Hcc Hhit Hv.
  assert (Hr : result CS hash_str parsedate_fields server (g, w) =
               (Err (TypeError "cannot unpack non-iterable NoneType object"), (g, w))).
  { cbv [result cache_has cache_lookup get_gen get_world bind ret raise get_st fst snd].
    rewrite Hc. cbv [cache_has cache_lookup get_world bind ret raise get_st fst snd].
    rewrite Hcc, Hhit, Hg, Hv. reflexivity. }
  split; [exact Hr|]. unfold get, catch. rewrite Hr. reflexivity.
Qed.

Lemma cache_entry_vanished_witness :
  get unit text_length_hash known_dates error_body_loads (pages_server "1")
      (mkGen unit assets_future 1 1 false (Some expiring_cache), empty_world)
  = (Err (TypeError "cannot unpack non-iterable NoneType object"),
     (mkGen unit assets_future 1 1 false (Some expiring_cache), empty_world)).
Proof.
  apply (cache_entry_vanished unit text_length_hash known_dates error_body_loads (pages_server "1")
           (mkGen unit assets_future 1 1 false (Some expiring_cache)) empty_world expiring_cache
           (fun _ _ => None) (fun _ _ => true)); reflexivity.
Defined.
